(** * Flight simulator: the parameter store, the physics evaluator, the
    feedback classifier, the tutorial tracker and the animation tick of
    [src/components/flight-simulator.tsx], as a state machine.

    Numbers.  The component computes with JavaScript numbers.  They are
    modelled here as exact rationals ([Q]): every arithmetic operator of the
    source is the corresponding operator of [Q], written in the order in
    which the source evaluates it.  Rounding, infinities and NaN are outside
    this model.  [Math.exp] is a function of the host; it is a parameter of
    the development ([Math_exp]) and every theorem holds for every host
    function.

    React.  A [useState] cell is a field of [State]; an event handler is a
    function on [State]; a [useEffect] body is a function on [State] that
    reads the fields of its dependency list.  After a handler has run, the
    effects are run until nothing changes any more ([flush]); the interval
    registered by the animation effect and the time-outs armed by the
    tutorial effect are fields of [State] too, since they decide which
    callbacks can still fire. *)

From Stdlib Require Import QArith Qminmax Qabs Lqa.
From Stdlib Require Import String List Bool Arith Lia.
Import ListNotations.

Local Open Scope Q_scope.

(** ** Numbers *)

(** [a < b] and [a <= b], [a > b] and [a >= b] of the source, as booleans. *)
Definition Qleb (a b : Q) : bool := Qle_bool a b.
Definition Qltb (a b : Q) : bool := negb (Qle_bool b a).

(** [Math.max], [Math.min] and [Math.abs]. *)
Definition Math_max (a b : Q) : Q := Qmax a b.
Definition Math_min (a b : Q) : Q := Qmin a b.
Definition Math_abs (a : Q) : Q := Qabs a.

(** [Math.PI], the decimal expansion of the double the host uses. *)
Definition Math_PI : Q := 3.141592653589793.

(** Truthiness of an optional number, as in [step.minValue && ...]:
    [undefined] and [0] are falsy. *)
Definition truthy (v : option Q) : bool :=
  match v with
  | None => false
  | Some q => negb (Qeq_bool q 0)
  end.

(** A host function to run the component with: the series of the
    exponential cut after twelve terms. *)
Fixpoint exp_series (n : nat) (k : Z) (term x : Q) : Q :=
  match n with
  | O => 0
  | S n' => term + exp_series n' (k + 1) (Qred (term * x / inject_Z k)) x
  end.

Definition sample_exp (x : Q) : Q := Qred (exp_series 12 1 1 x).

(** ** Data model *)

Record FlightParameters : Type := mkParameters {
  airspeed : Q;          (* km/h *)
  angleOfAttack : Q;     (* degrees *)
  altitude : Q;          (* meters *)
  throttle : Q;          (* percentage *)
  weight : Q;            (* kg *)
  wingArea : Q;          (* m^2 *)
  liftCoefficient : Q;
  dragCoefficient : Q
}.

(** [keyof FlightParameters]. *)
Inductive ParameterKey : Type :=
| K_airspeed | K_angleOfAttack | K_altitude | K_throttle
| K_weight | K_wingArea | K_liftCoefficient | K_dragCoefficient.

(** [parameters[key]] *)
Definition getParameter (key : ParameterKey) (p : FlightParameters) : Q :=
  match key with
  | K_airspeed => airspeed p
  | K_angleOfAttack => angleOfAttack p
  | K_altitude => altitude p
  | K_throttle => throttle p
  | K_weight => weight p
  | K_wingArea => wingArea p
  | K_liftCoefficient => liftCoefficient p
  | K_dragCoefficient => dragCoefficient p
  end.

(** [{ ...prev, [key]: value }] *)
Definition setParameter (key : ParameterKey) (value : Q) (p : FlightParameters)
  : FlightParameters :=
  match key with
  | K_airspeed =>
      mkParameters value (angleOfAttack p) (altitude p) (throttle p)
                   (weight p) (wingArea p) (liftCoefficient p) (dragCoefficient p)
  | K_angleOfAttack =>
      mkParameters (airspeed p) value (altitude p) (throttle p)
                   (weight p) (wingArea p) (liftCoefficient p) (dragCoefficient p)
  | K_altitude =>
      mkParameters (airspeed p) (angleOfAttack p) value (throttle p)
                   (weight p) (wingArea p) (liftCoefficient p) (dragCoefficient p)
  | K_throttle =>
      mkParameters (airspeed p) (angleOfAttack p) (altitude p) value
                   (weight p) (wingArea p) (liftCoefficient p) (dragCoefficient p)
  | K_weight =>
      mkParameters (airspeed p) (angleOfAttack p) (altitude p) (throttle p)
                   value (wingArea p) (liftCoefficient p) (dragCoefficient p)
  | K_wingArea =>
      mkParameters (airspeed p) (angleOfAttack p) (altitude p) (throttle p)
                   (weight p) value (liftCoefficient p) (dragCoefficient p)
  | K_liftCoefficient =>
      mkParameters (airspeed p) (angleOfAttack p) (altitude p) (throttle p)
                   (weight p) (wingArea p) value (dragCoefficient p)
  | K_dragCoefficient =>
      mkParameters (airspeed p) (angleOfAttack p) (altitude p) (throttle p)
                   (weight p) (wingArea p) (liftCoefficient p) value
  end.

Module Forces.
Record t : Type := mk {
  lift : Q;
  drag : Q;
  thrust : Q;
  weight : Q
}.
End Forces.

Module Position.
Record t : Type := mk { x : Q; y : Q; rotation : Q }.
End Position.

Module Velocity.
Record t : Type := mk { x : Q; y : Q; angular : Q }.
End Velocity.

(** An entry of [tutorialSteps].  [title], [description] and [explanation]
    are only displayed; [title] is kept to tell the steps apart.  A field
    the literal leaves out ([minValue], [maxValue], [isInformational]) is
    [undefined]: [None], and [false] where it is only tested. *)
Record TutorialStep : Type := mkStep {
  id : nat;
  title : string;
  target : ParameterKey;
  minValue : option Q;
  maxValue : option Q;
  isInformational : bool
}.

Definition tutorialSteps : list TutorialStep :=
  [ mkStep 1 "Understanding Airspeed" K_airspeed (Some 250) None false;
    mkStep 2 "Angle of Attack Effects" K_angleOfAttack (Some 8) (Some 12) false;
    mkStep 3 "Stall Recognition" K_angleOfAttack (Some 16) None false;
    mkStep 4 "Altitude Effects" K_altitude (Some 8000) None false;
    mkStep 5 "Thrust vs Drag Balance - Flight Analysis" K_throttle None None true ].

(** An entry of [aircraftPresets]. *)
Record AircraftPreset : Type := mkPreset {
  preset_weight : Q;
  preset_wingArea : Q;
  preset_name : string;
  preset_modelPath : string
}.

Definition aircraftPresets : list (string * AircraftPreset) :=
  [ ("boeing-737",
     mkPreset 41400 125 "Boeing 737-800" "/3d/boeing_737_american_airlines.glb");
    ("f16", mkPreset 8900 27.9 "F-16 Falcon" "/3d/f16-c_falcon.glb");
    ("b1", mkPreset 86000 181 "B-1 Lancer" "/3d/b1.glb");
    ("p51", mkPreset 3465 21.6 "P-51 Mustang" "/3d/p51.glb");
    ("hot-air-balloon",
     mkPreset 800 500 "Hot Air Balloon" "/3d/hot_air_balloon.glb") ]%string.

(** [aircraftPresets[aircraftId]] *)
Fixpoint lookupPreset (presets : list (string * AircraftPreset)) (aircraftId : string)
  : option AircraftPreset :=
  match presets with
  | [] => None
  | (k, v) :: rest => if String.eqb k aircraftId then Some v else lookupPreset rest aircraftId
  end.

(** What the callback of [setInterval] has closed over: the values of the
    dependency list of the animation effect at the render that registered
    it. *)
Record IntervalClosure : Type := mkClosure {
  c_forces : Forces.t;
  c_velocity : Velocity.t;
  c_angleOfAttack : Q;
  c_weight : Q
}.

(** The component state: the [useState] cells that the modelled handlers
    and effects read or write, the interval of the animation effect
    ([None] when none is registered) and the pending time-outs of the
    tutorial effect, oldest first, each with the [currentTutorial] it has
    closed over. *)
Record State : Type := mkState {
  isRunning : bool;
  selectedAircraft : string;
  parameters : FlightParameters;
  forces : Forces.t;
  position : Position.t;
  velocity : Velocity.t;
  isStalling : bool;
  currentTutorial : nat;
  tutorialActive : bool;
  completedSteps : list nat;
  showHints : bool;
  parameterFeedback : string;
  currentTips : list string;
  showAdvancedMetrics : bool;
  selectedModel : string;
  voiceEnabled : bool;
  interval : option IntervalClosure;
  timeouts : list nat
}.

(** The state setters: [setIsRunning], [setParameters], ... of the source,
    and [withInterval], [withTimeouts] for the interval and the time-outs. *)
Definition setIsRunning (v : bool) (s : State) : State :=
  mkState v (selectedAircraft s) (parameters s) (forces s) (position s)
          (velocity s) (isStalling s) (currentTutorial s) (tutorialActive s)
          (completedSteps s) (showHints s) (parameterFeedback s)
          (currentTips s) (showAdvancedMetrics s) (selectedModel s)
          (voiceEnabled s) (interval s) (timeouts s).

Definition setSelectedAircraft (v : string) (s : State) : State :=
  mkState (isRunning s) v (parameters s) (forces s) (position s) (velocity s)
          (isStalling s) (currentTutorial s) (tutorialActive s)
          (completedSteps s) (showHints s) (parameterFeedback s)
          (currentTips s) (showAdvancedMetrics s) (selectedModel s)
          (voiceEnabled s) (interval s) (timeouts s).

Definition setParameters (v : FlightParameters) (s : State) : State :=
  mkState (isRunning s) (selectedAircraft s) v (forces s) (position s)
          (velocity s) (isStalling s) (currentTutorial s) (tutorialActive s)
          (completedSteps s) (showHints s) (parameterFeedback s)
          (currentTips s) (showAdvancedMetrics s) (selectedModel s)
          (voiceEnabled s) (interval s) (timeouts s).

Definition setForces (v : Forces.t) (s : State) : State :=
  mkState (isRunning s) (selectedAircraft s) (parameters s) v (position s)
          (velocity s) (isStalling s) (currentTutorial s) (tutorialActive s)
          (completedSteps s) (showHints s) (parameterFeedback s)
          (currentTips s) (showAdvancedMetrics s) (selectedModel s)
          (voiceEnabled s) (interval s) (timeouts s).

Definition setPosition (v : Position.t) (s : State) : State :=
  mkState (isRunning s) (selectedAircraft s) (parameters s) (forces s) v
          (velocity s) (isStalling s) (currentTutorial s) (tutorialActive s)
          (completedSteps s) (showHints s) (parameterFeedback s)
          (currentTips s) (showAdvancedMetrics s) (selectedModel s)
          (voiceEnabled s) (interval s) (timeouts s).

Definition setVelocity (v : Velocity.t) (s : State) : State :=
  mkState (isRunning s) (selectedAircraft s) (parameters s) (forces s)
          (position s) v (isStalling s) (currentTutorial s) (tutorialActive s)
          (completedSteps s) (showHints s) (parameterFeedback s)
          (currentTips s) (showAdvancedMetrics s) (selectedModel s)
          (voiceEnabled s) (interval s) (timeouts s).

Definition setIsStalling (v : bool) (s : State) : State :=
  mkState (isRunning s) (selectedAircraft s) (parameters s) (forces s)
          (position s) (velocity s) v (currentTutorial s) (tutorialActive s)
          (completedSteps s) (showHints s) (parameterFeedback s)
          (currentTips s) (showAdvancedMetrics s) (selectedModel s)
          (voiceEnabled s) (interval s) (timeouts s).

Definition setCurrentTutorial (v : nat) (s : State) : State :=
  mkState (isRunning s) (selectedAircraft s) (parameters s) (forces s)
          (position s) (velocity s) (isStalling s) v (tutorialActive s)
          (completedSteps s) (showHints s) (parameterFeedback s)
          (currentTips s) (showAdvancedMetrics s) (selectedModel s)
          (voiceEnabled s) (interval s) (timeouts s).

Definition setTutorialActive (v : bool) (s : State) : State :=
  mkState (isRunning s) (selectedAircraft s) (parameters s) (forces s)
          (position s) (velocity s) (isStalling s) (currentTutorial s) v
          (completedSteps s) (showHints s) (parameterFeedback s)
          (currentTips s) (showAdvancedMetrics s) (selectedModel s)
          (voiceEnabled s) (interval s) (timeouts s).

Definition setCompletedSteps (v : list nat) (s : State) : State :=
  mkState (isRunning s) (selectedAircraft s) (parameters s) (forces s)
          (position s) (velocity s) (isStalling s) (currentTutorial s)
          (tutorialActive s) v (showHints s) (parameterFeedback s)
          (currentTips s) (showAdvancedMetrics s) (selectedModel s)
          (voiceEnabled s) (interval s) (timeouts s).

Definition setShowHints (v : bool) (s : State) : State :=
  mkState (isRunning s) (selectedAircraft s) (parameters s) (forces s)
          (position s) (velocity s) (isStalling s) (currentTutorial s)
          (tutorialActive s) (completedSteps s) v (parameterFeedback s)
          (currentTips s) (showAdvancedMetrics s) (selectedModel s)
          (voiceEnabled s) (interval s) (timeouts s).

Definition setParameterFeedback (v : string) (s : State) : State :=
  mkState (isRunning s) (selectedAircraft s) (parameters s) (forces s)
          (position s) (velocity s) (isStalling s) (currentTutorial s)
          (tutorialActive s) (completedSteps s) (showHints s) v
          (currentTips s) (showAdvancedMetrics s) (selectedModel s)
          (voiceEnabled s) (interval s) (timeouts s).

Definition setCurrentTips (v : list string) (s : State) : State :=
  mkState (isRunning s) (selectedAircraft s) (parameters s) (forces s)
          (position s) (velocity s) (isStalling s) (currentTutorial s)
          (tutorialActive s) (completedSteps s) (showHints s)
          (parameterFeedback s) v (showAdvancedMetrics s) (selectedModel s)
          (voiceEnabled s) (interval s) (timeouts s).

Definition setShowAdvancedMetrics (v : bool) (s : State) : State :=
  mkState (isRunning s) (selectedAircraft s) (parameters s) (forces s)
          (position s) (velocity s) (isStalling s) (currentTutorial s)
          (tutorialActive s) (completedSteps s) (showHints s)
          (parameterFeedback s) (currentTips s) v (selectedModel s)
          (voiceEnabled s) (interval s) (timeouts s).

Definition setSelectedModel (v : string) (s : State) : State :=
  mkState (isRunning s) (selectedAircraft s) (parameters s) (forces s)
          (position s) (velocity s) (isStalling s) (currentTutorial s)
          (tutorialActive s) (completedSteps s) (showHints s)
          (parameterFeedback s) (currentTips s) (showAdvancedMetrics s) v
          (voiceEnabled s) (interval s) (timeouts s).

Definition setVoiceEnabled (v : bool) (s : State) : State :=
  mkState (isRunning s) (selectedAircraft s) (parameters s) (forces s)
          (position s) (velocity s) (isStalling s) (currentTutorial s)
          (tutorialActive s) (completedSteps s) (showHints s)
          (parameterFeedback s) (currentTips s) (showAdvancedMetrics s)
          (selectedModel s) v (interval s) (timeouts s).

Definition withInterval (v : option IntervalClosure) (s : State) : State :=
  mkState (isRunning s) (selectedAircraft s) (parameters s) (forces s)
          (position s) (velocity s) (isStalling s) (currentTutorial s)
          (tutorialActive s) (completedSteps s) (showHints s)
          (parameterFeedback s) (currentTips s) (showAdvancedMetrics s)
          (selectedModel s) (voiceEnabled s) v (timeouts s).

Definition withTimeouts (v : list nat) (s : State) : State :=
  mkState (isRunning s) (selectedAircraft s) (parameters s) (forces s)
          (position s) (velocity s) (isStalling s) (currentTutorial s)
          (tutorialActive s) (completedSteps s) (showHints s)
          (parameterFeedback s) (currentTips s) (showAdvancedMetrics s)
          (selectedModel s) (voiceEnabled s) (interval s) v.

(** ** The effects and the handlers *)

(** What the component takes from its host: [Math.exp]. *)
Class Host : Type := { Math_exp : Q -> Q }.

Section Component.

Context {host : Host}.

(** *** Physics calculations (the first [useEffect]) *)

Definition airDensity (p : FlightParameters) : Q :=
  1.225 * Math_exp ((- altitude p) / 8400).

Definition velocityMs (p : FlightParameters) : Q := airspeed p / 3.6.

Definition criticalAngle : Q := 15.

Definition stalling (p : FlightParameters) : bool :=
  Qltb criticalAngle (angleOfAttack p).

Definition dynamicPressure (p : FlightParameters) : Q :=
  0.5 * airDensity p * velocityMs p * velocityMs p.

(** [lift] as first assigned, before the stall test. *)
Definition liftBeforeStall (p : FlightParameters) : Q :=
  dynamicPressure p * wingArea p * liftCoefficient p.

(** The object passed to [setForces]. *)
Definition computeForces (p : FlightParameters) : Forces.t :=
  let lift := liftBeforeStall p in
  let lift := if stalling p then lift * 0.3 else lift in
  let drag := dynamicPressure p * wingArea p * dragCoefficient p in
  let thrust := (throttle p / 100) * 120000 in
  let weight := weight p * 9.81 in
  Forces.mk lift drag thrust weight.

Definition physicsEffect (s : State) : State :=
  setForces (computeForces (parameters s))
            (setIsStalling (stalling (parameters s)) s).

(** *** Animation loop (the second [useEffect]) *)

(** The updater passed to [setPosition] by the interval callback, with the
    velocity it hands to [setVelocity]. *)
Definition integrate (c : IntervalClosure) (prev : Position.t)
  : Position.t * Velocity.t :=
  let dt := 0.1 in
  let mass := c_weight c in
  let netVertical := Forces.lift (c_forces c) - Forces.weight (c_forces c) in
  let netHorizontal := Forces.thrust (c_forces c) - Forces.drag (c_forces c) in
  let accelX := netHorizontal / mass in
  let accelY := (- netVertical) / mass in
  let newVelX := Velocity.x (c_velocity c) + accelX * dt in
  let newVelY := Velocity.y (c_velocity c) + accelY * dt in
  let newX := Math_max 50 (Math_min 750 (Position.x prev + newVelX * dt * 100)) in
  let newY := Math_max 50 (Math_min 550 (Position.y prev + newVelY * dt * 100)) in
  let newRotation := c_angleOfAttack c * (Math_PI / 180) in
  (Position.mk newX newY newRotation, Velocity.mk newVelX newVelY 0).

(** One run of the interval callback. *)
Definition intervalCallback (c : IntervalClosure) (s : State) : State :=
  let r := integrate c (position s) in
  setVelocity (snd r) (setPosition (fst r) s).

(** The effect: the clean-up of the previous run clears its interval; then
    [if (!isRunning) return], else a new interval is registered. *)
Definition animationEffect (s : State) : State :=
  let s := withInterval None s in
  if negb (isRunning s) then s
  else withInterval
         (Some (mkClosure (forces s) (velocity s)
                          (angleOfAttack (parameters s)) (weight (parameters s))))
         s.

(** *** Parameter change feedback system (the fourth [useEffect]) *)

Definition feedback_lowSpeed : string :=
  "⚠️ Low airspeed - insufficient lift for most aircraft.".
Definition feedback_highSpeed : string :=
  "⚡ High speed flight - drag increases significantly.".
Definition feedback_nearStall : string :=
  "⚠️ Approaching critical angle of attack. Stall warning!".
Definition feedback_stall : string :=
  "🚨 STALL CONDITION - Airflow separated from wing surface!".
Definition feedback_negativeAngle : string :=
  "📉 Negative angle of attack - aircraft will descend rapidly.".
Definition feedback_highAltitude : string :=
  "🏔️ High altitude - reduced air density affects performance.".
Definition feedback_balanced : string :=
  "✅ Excellent! Forces are well balanced for steady flight.".

(** The pair of the local variables [feedback] and [tips]. *)
Definition Advice : Type := (string * list string)%type.

(** [if (airspeed < 150) ... else if (airspeed > 400) ...] *)
Definition checkAirspeed (p : FlightParameters) (a : Advice) : Advice :=
  if Qltb (airspeed p) 150 then
    (feedback_lowSpeed,
     snd a ++ ["Increase speed or angle of attack to generate more lift";
               "Formula: Lift = ½ × air density × velocity² × wing area × lift coefficient"]%string)
  else if Qltb 400 (airspeed p) then
    (feedback_highSpeed,
     snd a ++ ["Drag increases with velocity squared - doubling speed quadruples drag";
               "Consider reducing throttle to maintain efficient flight"]%string)
  else a.

(** [if (12 < angleOfAttack <= 15) ... else if (angleOfAttack > 15) ...
    else if (angleOfAttack < 0) ...] *)
Definition checkAngle (p : FlightParameters) (a : Advice) : Advice :=
  if Qltb 12 (angleOfAttack p) && Qleb (angleOfAttack p) 15 then
    (feedback_nearStall,
     snd a ++ ["Most aircraft stall between 15-18° angle of attack";
               "Reduce angle of attack or increase airspeed to maintain safe flight"]%string)
  else if Qltb 15 (angleOfAttack p) then
    (feedback_stall,
     snd a ++ ["Immediately reduce angle of attack and increase throttle";
               "In real flight, push the nose down to recover from stall"]%string)
  else if Qltb (angleOfAttack p) 0 then
    (feedback_negativeAngle,
     snd a ++ ["Negative angles create downward lift - useful for aerobatic maneuvers"]%string)
  else a.

(** [if (altitude > 8000) ...] *)
Definition checkAltitude (p : FlightParameters) (a : Advice) : Advice :=
  if Qltb 8000 (altitude p) then
    (feedback_highAltitude,
     snd a ++ ["Air density at 10,000m is about 26% of sea level density";
               "Higher speeds or larger angles needed to maintain same lift"]%string)
  else a.

(** [thrustDragDiff < 5000 && liftWeightDiff < 10000] *)
Definition balanced (f : Forces.t) : bool :=
  let thrustDragDiff := Math_abs (Forces.thrust f - Forces.drag f) in
  let liftWeightDiff := Math_abs (Forces.lift f - Forces.weight f) in
  Qltb thrustDragDiff 5000 && Qltb liftWeightDiff 10000.

Definition checkBalance (f : Forces.t) (a : Advice) : Advice :=
  if balanced f then
    (feedback_balanced,
     snd a ++ ["This is ideal for cruise flight - minimal energy waste";
               "Small adjustments maintain altitude and speed efficiently"]%string)
  else a.

(** The values of [feedback] and [tips] when the effect reaches its two
    setters: the four statements in the order of the source. *)
Definition classify (p : FlightParameters) (f : Forces.t) : Advice :=
  checkBalance f (checkAltitude p (checkAngle p (checkAirspeed p (EmptyString, [])))).

Definition feedbackEffect (s : State) : State :=
  let a := classify (parameters s) (forces s) in
  setCurrentTips (snd a) (setParameterFeedback (fst a) s).

(** *** The tutorial tracker (the fifth [useEffect]) *)

(** [completedSteps.includes(id)] *)
Definition includes (l : list nat) (n : nat) : bool := existsb (Nat.eqb n) l.

(** The local variable [completed]: a comparison with an [undefined]
    threshold is not reached, the guards are the truthiness tests. *)
Definition stepCompleted (step : TutorialStep) (currentValue : Q) : bool :=
  if truthy (minValue step) && truthy (maxValue step) then
    match minValue step, maxValue step with
    | Some lo, Some hi => Qleb lo currentValue && Qleb currentValue hi
    | _, _ => false
    end
  else if truthy (minValue step) then
    match minValue step with
    | Some lo => Qleb lo currentValue
    | None => false
    end
  else false.

Definition tutorialEffect (s : State) : State :=
  if negb (tutorialActive s) || (length tutorialSteps <=? currentTutorial s)%nat
  then s
  else
    match nth_error tutorialSteps (currentTutorial s) with
    | None => s
    | Some step =>
        if isInformational step then s
        else
          let currentValue := getParameter (target step) (parameters s) in
          let completed := stepCompleted step currentValue in
          if completed && negb (includes (completedSteps s) (id step)) then
            (* setCompletedSteps((prev) => [...prev, step.id]); setTimeout(...) *)
            withTimeouts (timeouts s ++ [currentTutorial s])
              (setCompletedSteps (completedSteps s ++ [id step]) s)
          else s
    end.

(** The callback of the time-out, [captured] being the [currentTutorial] of
    the render that armed it. *)
Definition timeoutCallback (captured : nat) (s : State) : State :=
  if (captured <? length tutorialSteps - 1)%nat
  then setCurrentTutorial (currentTutorial s + 1)%nat s
  else s.

(** *** Running the effects *)

(** The effects in the order of their declaration.  Each one reads only
    fields that the later ones leave alone, so this one pass is where the
    renders that follow an update settle ([flush_idempotent]). *)
Definition flush (s : State) : State :=
  tutorialEffect (feedbackEffect (animationEffect (physicsEffect s))).

(** *** The handlers *)

Definition resetSimulation (s : State) : State :=
  setVelocity (Velocity.mk 0 0 0)
    (setPosition (Position.mk 400 300 0)
       (setIsRunning false s)).

Definition updateParameter (key : ParameterKey) (value : Q) (s : State) : State :=
  setParameters (setParameter key value (parameters s)) s.

Definition selectAircraft (aircraftId : string) (s : State) : State :=
  let s := setSelectedAircraft aircraftId s in
  match lookupPreset aircraftPresets aircraftId with
  | Some preset =>
      let s := updateParameter K_weight (preset_weight preset) s in
      let s := updateParameter K_wingArea (preset_wingArea preset) s in
      let s :=
        if String.eqb aircraftId "hot-air-balloon" then
          let s := updateParameter K_airspeed 30 s in
          let s := updateParameter K_angleOfAttack 0 s in
          updateParameter K_throttle 50 s
        else s in
      setSelectedModel (preset_modelPath preset) s
  | None => s
  end.

Definition startTutorial (s : State) : State :=
  let s := setTutorialActive true s in
  let s := setCurrentTutorial 0 s in
  let s := setCompletedSteps [] s in
  resetSimulation s.

(** The Play/Pause button: [setIsRunning(!isRunning)]. *)
Definition toggleRunning (s : State) : State := setIsRunning (negb (isRunning s)) s.

(** The Previous button: [setCurrentTutorial(Math.max(0, currentTutorial - 1))]. *)
Definition tutorialPrevious (s : State) : State :=
  setCurrentTutorial (Nat.max 0 (currentTutorial s - 1)) s.

(** The Next/Finish button. *)
Definition tutorialNext (s : State) : State :=
  if (currentTutorial s <? length tutorialSteps - 1)%nat
  then setCurrentTutorial (currentTutorial s + 1)%nat s
  else setTutorialActive false s.

(** The four sliders, with the [min], [max] and [step] they are given. *)
Inductive Slider : Type :=
| Slider_airspeed | Slider_angleOfAttack | Slider_altitude | Slider_throttle.

Definition sliderKey (w : Slider) : ParameterKey :=
  match w with
  | Slider_airspeed => K_airspeed
  | Slider_angleOfAttack => K_angleOfAttack
  | Slider_altitude => K_altitude
  | Slider_throttle => K_throttle
  end.

Definition sliderMin (w : Slider) : Q :=
  match w with
  | Slider_airspeed => 50
  | Slider_angleOfAttack => -10
  | Slider_altitude => 0
  | Slider_throttle => 0
  end.

Definition sliderMax (w : Slider) : Q :=
  match w with
  | Slider_airspeed => 500
  | Slider_angleOfAttack => 25
  | Slider_altitude => 12000
  | Slider_throttle => 100
  end.

Definition sliderStep (w : Slider) : Q :=
  match w with
  | Slider_airspeed => 10
  | Slider_angleOfAttack => 0.5
  | Slider_altitude => 100
  | Slider_throttle => 5
  end.

(** [onValueChange={([value]) => updateParameter(key, value)}] *)
Definition sliderChange (w : Slider) (value : Q) (s : State) : State :=
  updateParameter (sliderKey w) value s.

(** The value a slider hands to [onValueChange] lies in its range. *)
Definition inSliderRange (w : Slider) (value : Q) : Prop :=
  sliderMin w <= value <= sliderMax w.

(** *** The state machine *)

(** What can happen to the mounted component: a callback of a widget, a
    tick of the interval, the oldest pending time-out firing. *)
Inductive Event : Type :=
| SliderChange (w : Slider) (value : Q)
| SelectAircraft (aircraftId : string)
| ToggleRunning
| ResetSimulation
| StartTutorial
| TutorialPrevious
| TutorialNext
| ToggleVoice
| ToggleHints
| ToggleAdvancedMetrics
| IntervalTick
| TimeoutFires.

(** The callback of the event, before the effects run.  The Previous and
    Next buttons exist only while the tutorial card is rendered; a tick
    runs the callback of the registered interval, if there is one. *)
Definition handle (e : Event) (s : State) : State :=
  match e with
  | SliderChange w value => sliderChange w value s
  | SelectAircraft aircraftId => selectAircraft aircraftId s
  | ToggleRunning => toggleRunning s
  | ResetSimulation => resetSimulation s
  | StartTutorial => startTutorial s
  | TutorialPrevious => if tutorialActive s then tutorialPrevious s else s
  | TutorialNext => if tutorialActive s then tutorialNext s else s
  | ToggleVoice => setVoiceEnabled (negb (voiceEnabled s)) s
  | ToggleHints => setShowHints (negb (showHints s)) s
  | ToggleAdvancedMetrics => setShowAdvancedMetrics (negb (showAdvancedMetrics s)) s
  | IntervalTick =>
      match interval s with
      | Some c => intervalCallback c s
      | None => s
      end
  | TimeoutFires =>
      match timeouts s with
      | captured :: rest => timeoutCallback captured (withTimeouts rest s)
      | [] => s
      end
  end.

Definition step (e : Event) (s : State) : State := flush (handle e s).

(** The initial values of the [useState] cells. *)
Definition mountState : State :=
  mkState false "boeing-737"
          (mkParameters 250 5 3000 75 41400 125 1.2 0.025)
          (Forces.mk 0 0 0 0)
          (Position.mk 400 300 0)
          (Velocity.mk 0 0 0)
          false 0%nat false [] true EmptyString [] false
          "/3d/boeing_737_american_airlines.glb" false None [].

(** The component once mounted: the effects have run on the initial values. *)
Definition initialState : State := flush mountState.

Definition run (es : list Event) (s : State) : State :=
  fold_left (fun s e => step e s) es s.

Inductive reachable : State -> Prop :=
| reachable_init : reachable initialState
| reachable_step (e : Event) (s : State) : reachable s -> reachable (step e s).

(** ** The specification's words, to compare the code with *)

(** The threshold checks of the feedback classifier in the order the
    specification lists them (low speed, high speed, near-stall, stall,
    negative angle, high altitude, balanced forces), each with its advisory
    string. *)
Definition orderedChecks (p : FlightParameters) (f : Forces.t)
  : list (bool * string) :=
  [ (Qltb (airspeed p) 150, feedback_lowSpeed);
    (Qltb 400 (airspeed p), feedback_highSpeed);
    (Qltb 12 (angleOfAttack p) && Qleb (angleOfAttack p) 15, feedback_nearStall);
    (Qltb 15 (angleOfAttack p), feedback_stall);
    (Qltb (angleOfAttack p) 0, feedback_negativeAngle);
    (Qltb 8000 (altitude p), feedback_highAltitude);
    (Qltb (Math_abs (Forces.thrust f - Forces.drag f)) 5000
     && Qltb (Math_abs (Forces.lift f - Forces.weight f)) 10000,
     feedback_balanced) ].

(** Later checks overwrite earlier ones: the string of the last check that
    matches, [none] when none does. *)
Definition lastMatching (checks : list (bool * string)) (none : string) : string :=
  fold_left (fun (acc : string) (c : bool * string) => if fst c then snd c else acc)
            checks none.

(** The value lies in the declared range of the step: between both
    thresholds when both are present, at least [minValue] when only that one
    is. *)
Definition inDeclaredRange (step : TutorialStep) (value : Q) : Prop :=
  match minValue step, maxValue step with
  | Some lo, Some hi => lo <= value <= hi
  | Some lo, None => lo <= value
  | None, _ => False
  end.

(** The position lies in the interior of the canvas the tick clamps to. *)
Definition inCanvas (pos : Position.t) : Prop :=
  (50 <= Position.x pos <= 750) /\ (50 <= Position.y pos <= 550).

(** The value the event carries is one its widget can produce: a slider
    value lies in the range of the slider, an aircraft id is one of the keys
    of [aircraftPresets], which the buttons and the select box list. *)
Definition fromWidget (e : Event) : Prop :=
  match e with
  | SliderChange w value => inSliderRange w value
  | SelectAircraft aircraftId => In aircraftId (map fst aircraftPresets)
  | _ => True
  end.

(** The event selects the hot-air balloon. *)
Definition selectsBalloon (e : Event) : bool :=
  match e with
  | SelectAircraft aircraftId => String.eqb aircraftId "hot-air-balloon"
  | _ => false
  end.

(** The closure the animation effect registers for the state [s]. *)
Definition currentClosure (s : State) : IntervalClosure :=
  mkClosure (forces s) (velocity s)
            (angleOfAttack (parameters s)) (weight (parameters s)).

(** A state in which no effect has anything left to do. *)
Definition settled (s : State) : Prop :=
  forces s = computeForces (parameters s)
  /\ isStalling s = stalling (parameters s)
  /\ interval s = (if isRunning s then Some (currentClosure s) else None)
  /\ parameterFeedback s = fst (classify (parameters s) (forces s))
  /\ currentTips s = snd (classify (parameters s) (forces s))
  /\ tutorialEffect s = s.

(** ** More of the component *)

(** The states the widgets can lead to: every event carries a value its
    widget can produce. *)
Inductive widgetReachable : State -> Prop :=
| widgetReachable_init : widgetReachable initialState
| widgetReachable_step (e : Event) (s : State) :
    widgetReachable s -> fromWidget e -> widgetReachable (step e s).

(** The ranges the four sliders and the hot-air balloon branch of
    [selectAircraft] keep the adjustable parameters in. *)
Definition parametersInRange (p : FlightParameters) : Prop :=
  (30 <= airspeed p <= 500)
  /\ (-10 <= angleOfAttack p <= 25)
  /\ (0 <= altitude p <= 12000)
  /\ (0 <= throttle p <= 100).

(** Equality of keys, for [{ ...prev, [key]: value }]. *)
Definition keyEqb (k k' : ParameterKey) : bool :=
  match k, k' with
  | K_airspeed, K_airspeed
  | K_angleOfAttack, K_angleOfAttack
  | K_altitude, K_altitude
  | K_throttle, K_throttle
  | K_weight, K_weight
  | K_wingArea, K_wingArea
  | K_liftCoefficient, K_liftCoefficient
  | K_dragCoefficient, K_dragCoefficient => true
  | _, _ => false
  end.

(** The labels under the lift and the thrust in the Force Analysis card:
    [forces.lift > forces.weight ? "Climbing" : ...] and
    [forces.thrust > forces.drag ? "Accelerating" : ...]. *)
Definition verticalLabel (f : Forces.t) : string :=
  if Qltb (Forces.weight f) (Forces.lift f) then "Climbing"
  else if Qltb (Forces.lift f) (Forces.weight f) then "Descending"
  else "Level".

Definition horizontalLabel (f : Forces.t) : string :=
  if Qltb (Forces.drag f) (Forces.thrust f) then "Accelerating"
  else if Qltb (Forces.thrust f) (Forces.drag f) then "Decelerating"
  else "Steady".

(** The last line of the Real-time Force Analysis panel of the
    informational step. *)
Definition analysisLine (f : Forces.t) : string :=
  if Qltb (Math_abs (Forces.thrust f - Forces.drag f)) 5000
     && Qltb (Math_abs (Forces.lift f - Forces.weight f)) 10000
  then "✅ Perfect balance achieved! This is steady, efficient flight."
  else "⚖️ Adjust throttle and other parameters to achieve force balance.".

(** The value of the progress bar of the tutorial card:
    [(completedSteps.length / (tutorialSteps.length - 1)) * 100]. *)
Definition progressValue (s : State) : Q :=
  (inject_Z (Z.of_nat (length (completedSteps s)))
   / inject_Z (Z.of_nat (length tutorialSteps - 1))) * 100.

(** The acceleration the interval callback computes from a closure. *)
Definition accelX (c : IntervalClosure) : Q :=
  (Forces.thrust (c_forces c) - Forces.drag (c_forces c)) / c_weight c.

Definition accelY (c : IntervalClosure) : Q :=
  (- (Forces.lift (c_forces c) - Forces.weight (c_forces c))) / c_weight c.

(** *** Voice guidance *)

(** What the voice guidance keeps besides [State]: the [lastAnnouncement]
    cell, whether [announcementTimeoutRef] holds a timer that has not fired
    yet, [previousCompletedStepsRef.current], and the speech synthesis of
    the host, [None] when [window] has none and else its queue of
    utterances.  [spoken] records every text handed to
    [speechSynthesis.speak], oldest first. *)
Record Voice : Type := mkVoice {
  lastAnnouncement : string;
  announcementTimeout : bool;
  previousCompletedSteps : list nat;
  speechSynthesis : option (list string);
  spoken : list string
}.

(** [speakText]: [cancel()] empties the queue, [speak] puts the utterance in
    it. *)
Definition speakText (text : string) (v : Voice) : bool * Voice :=
  match speechSynthesis v with
  | Some _ =>
      (true,
       mkVoice (lastAnnouncement v) (announcementTimeout v)
               (previousCompletedSteps v) (Some [text]) (spoken v ++ [text]))
  | None => (false, v)
  end.

(** [announceStatus], called in a render whose [voiceEnabled] and
    [lastAnnouncement] are [enabled] and [seen]: the updates it queues do
    not change what later calls of the same render see. *)
Definition announceStatus (enabled : bool) (seen : string)
           (message : string) (force : bool) (v : Voice) : Voice :=
  if negb enabled && negb force then v
  else if String.eqb message seen then v
  else
    (* clearTimeout of the previous timer, speakText, setLastAnnouncement,
       a new timer of 3000 ms *)
    let v := snd (speakText message v) in
    mkVoice message true (previousCompletedSteps v) (speechSynthesis v) (spoken v).

(** The callback of that timer: [setLastAnnouncement("")]. *)
Definition announcementExpires (v : Voice) : Voice :=
  if announcementTimeout v
  then mkVoice EmptyString false (previousCompletedSteps v)
               (speechSynthesis v) (spoken v)
  else v.

Definition say_stall : string := "warning, stall condition. reduce angle of attack.".
Definition say_ascending : string := "ascending.".
Definition say_descending : string := "descending.".
Definition say_tooLow : string := "speed is too low.".
Definition say_tooHigh : string := "speed is too high.".
Definition say_stepCompleted : string := "step completed. good job.".

(** The effect of the voice guidance (the sixth [useEffect]), run in a
    render with the state [s]. *)
Definition voiceEffect (s : State) (v : Voice) : Voice :=
  if negb (voiceEnabled s) then v
  else
    let announce := fun message => announceStatus (voiceEnabled s)
                                     (lastAnnouncement v) message false in
    let previous := previousCompletedSteps v in
    let v := if isStalling s then announce say_stall v else v in
    let liftWeightDiff := Forces.lift (forces s) - Forces.weight (forces s) in
    let v := if Qltb 10000 liftWeightDiff then announce say_ascending v
             else if Qltb liftWeightDiff (-10000) then announce say_descending v
             else v in
    let v := if Qltb (airspeed (parameters s)) 150 then announce say_tooLow v
             else if Qltb 400 (airspeed (parameters s)) then announce say_tooHigh v
             else v in
    let v := if tutorialActive s
                && (0 <? length (completedSteps s))%nat
                && (length previous <? length (completedSteps s))%nat
             then announce say_stepCompleted v
             else v in
    mkVoice (lastAnnouncement v) (announcementTimeout v) (completedSteps s)
            (speechSynthesis v) (spoken v).

(** The messages whose conditions hold, in the order of the effect. *)
Definition dueAnnouncements (s : State) (v : Voice) : list string :=
  (if isStalling s then [say_stall] else [])
  ++ (if Qltb 10000 (Forces.lift (forces s) - Forces.weight (forces s))
      then [say_ascending]
      else if Qltb (Forces.lift (forces s) - Forces.weight (forces s)) (-10000)
           then [say_descending] else [])
  ++ (if Qltb (airspeed (parameters s)) 150 then [say_tooLow]
      else if Qltb 400 (airspeed (parameters s)) then [say_tooHigh] else [])
  ++ (if tutorialActive s
         && (0 <? length (completedSteps s))%nat
         && (length (previousCompletedSteps v) <? length (completedSteps s))%nat
      then [say_stepCompleted] else []).

(** The messages among [messages] that differ from [seen]. *)
Definition notSeen (seen : string) (messages : list string) : list string :=
  filter (fun message => negb (String.eqb message seen)) messages.

(** *** The 3D aircraft *)

(** [modelPath.includes('hot_air_balloon')] *)
Definition isHotAirBalloon (modelPath : string) : bool :=
  match String.index 0 "hot_air_balloon" modelPath with
  | Some _ => true
  | None => false
  end.

(** What [AircraftModel] hands to the scene: the rotation of the model and
    the thrust cone, if any, with its height and colour. *)
Record AircraftView : Type := mkView {
  pitch : Q;
  yaw : Q;
  roll : Q;
  thrustCone : option (Q * string)
}.

Definition aircraftModel (modelPath : string) (rotation : Q * Q * Q)
           (angleOfAttack throttle : Q) : AircraftView :=
  mkView (if isHotAirBalloon modelPath then 0
          else angleOfAttack * (Math_PI / 180))
         (snd (fst rotation))
         (snd rotation)
         (if negb (isHotAirBalloon modelPath) && Qltb 30 throttle
          then Some (throttle / 500,
                     if Qltb 70 throttle then "#FF4500"%string
                     else "#FFA500"%string)
          else None).

(** [<AircraftModel modelPath={selectedModel} rotation={[0, position.rotation, 0]}
    angleOfAttack={parameters.angleOfAttack} throttle={parameters.throttle} />] *)
Definition aircraftView (s : State) : AircraftView :=
  aircraftModel (selectedModel s) (0, Position.rotation (position s), 0)
                (angleOfAttack (parameters s)) (throttle (parameters s)).

(** The calls of [announceStatus] of one run of the effect, one after the
    other. *)
Definition announceAll (seen : string) (messages : list string) (v : Voice) : Voice :=
  fold_left (fun w message => announceStatus true seen message false w) messages v.

(** *** Advanced metrics *)

(** The lift-to-drag ratio of the Advanced Flight Metrics, before it is
    formatted: [forces.drag > 0 ? forces.lift / forces.drag : "∞"], [None]
    standing for the infinity sign. *)
Definition liftToDragRatio (f : Forces.t) : option Q :=
  if Qltb 0 (Forces.drag f) then Some (Forces.lift f / Forces.drag f) else None.

End Component.

(** ** A host to run the component with *)

Definition sampleHost : Host := {| Math_exp := sample_exp |}.

(** The component as mounted on that host. *)
Definition sampleMounted : State := @initialState sampleHost.

(** Play pressed, then two ticks. *)
Definition sampleFlying : State :=
  @run sampleHost [ToggleRunning; IntervalTick; IntervalTick] sampleMounted.

(** Start Tutorial pressed (the airspeed is 250, so the first step
    completes at once) and its time-out fired: the tutorial is at its
    second step. *)
Definition sampleAtStep2 : State :=
  @run sampleHost [StartTutorial; TimeoutFires] sampleMounted.

(** The second step of the tutorial. *)
Definition sampleStep2 : TutorialStep :=
  mkStep 2 "Angle of Attack Effects" K_angleOfAttack (Some 8) (Some 12) false.

(** A closure with forces far beyond what the sliders can produce. *)
Definition sampleHugeClosure : IntervalClosure :=
  mkClosure (Forces.mk 1000000000000 0 1000000000000 1)
            (Velocity.mk 1000000 (-1000000) 0) 25 1.

(** The hot-air balloon selected. *)
Definition sampleBalloon : State :=
  @run sampleHost [SelectAircraft "hot-air-balloon"] sampleMounted.

(** The tutorial taken up to its fourth step, which the altitude slider
    has just completed: its time-out is pending. *)
Definition sampleStep4Done : State :=
  @run sampleHost
       [StartTutorial; TimeoutFires;
        SliderChange Slider_angleOfAttack 10; TimeoutFires;
        SliderChange Slider_angleOfAttack 20; TimeoutFires;
        SliderChange Slider_altitude 9000] sampleMounted.

(** Voice guidance switched on, the aircraft stalled and slow. *)
Definition sampleStalledSlow : State :=
  @run sampleHost
       [ToggleVoice; SliderChange Slider_angleOfAttack 20;
        SliderChange Slider_airspeed 100] sampleMounted.

(** The voice guidance at mount, on a host with speech synthesis. *)
Definition sampleVoice : Voice := mkVoice EmptyString false [] (Some []) [].

(** The voice guidance with the stall warning just spoken. *)
Definition sampleVoiceWarned : Voice :=
  mkVoice say_stall true [] (Some [say_stall]) [say_stall].

(** ** Properties *)

Section Properties.

Context {host : Host}.

(** *** Comparisons *)

Lemma Qleb_le (a b : Q) : Qleb a b = true <-> a <= b.
Proof. apply Qle_bool_iff. Qed.

Lemma Qltb_lt (a b : Q) : Qltb a b = true <-> a < b.
Proof.
  unfold Qltb. rewrite negb_true_iff.
  split; intro H.
  - apply Qnot_le_lt. intro Hle. apply Qle_bool_iff in Hle. congruence.
  - destruct (Qle_bool b a) eqn:E; [|reflexivity].
    apply Qle_bool_iff in E. exfalso. eapply Qlt_not_le; eauto.
Qed.

Lemma Qltb_ge (a b : Q) : Qltb a b = false <-> b <= a.
Proof.
  unfold Qltb. rewrite negb_false_iff. apply Qle_bool_iff.
Qed.

Lemma Qleb_gt (a b : Q) : Qleb a b = false <-> b < a.
Proof.
  unfold Qleb. split; intro H.
  - apply Qnot_le_lt. intro Hle. apply Qle_bool_iff in Hle. congruence.
  - destruct (Qle_bool a b) eqn:E; [|reflexivity].
    apply Qle_bool_iff in E. exfalso. eapply Qlt_not_le; eauto.
Qed.

(** Boolean tests of the source as hypotheses, then linear arithmetic. *)
Ltac q_tests :=
  repeat match goal with
         | H : Qltb _ _ = true |- _ => apply Qltb_lt in H
         | H : Qltb _ _ = false |- _ => apply Qltb_ge in H
         | H : Qleb _ _ = true |- _ => apply Qleb_le in H
         | H : Qleb _ _ = false |- _ => apply Qleb_gt in H
         end.


(** *** What each effect leaves alone *)

Ltac tutorial_cases :=
  unfold tutorialEffect;
  repeat match goal with
         | |- context [if ?b then _ else _] => destruct b
         | |- context [match nth_error ?l ?n with _ => _ end] => destruct (nth_error l n)
         end;
  try reflexivity.

Lemma parameters_tutorialEffect (s : State) :
  parameters (tutorialEffect s) = parameters s.
Proof. tutorial_cases. Qed.

Lemma forces_tutorialEffect (s : State) : forces (tutorialEffect s) = forces s.
Proof. tutorial_cases. Qed.

Lemma isStalling_tutorialEffect (s : State) :
  isStalling (tutorialEffect s) = isStalling s.
Proof. tutorial_cases. Qed.

Lemma isRunning_tutorialEffect (s : State) :
  isRunning (tutorialEffect s) = isRunning s.
Proof. tutorial_cases. Qed.

Lemma position_tutorialEffect (s : State) :
  position (tutorialEffect s) = position s.
Proof. tutorial_cases. Qed.

Lemma velocity_tutorialEffect (s : State) :
  velocity (tutorialEffect s) = velocity s.
Proof. tutorial_cases. Qed.

Lemma interval_tutorialEffect (s : State) :
  interval (tutorialEffect s) = interval s.
Proof. tutorial_cases. Qed.

Lemma feedback_tutorialEffect (s : State) :
  parameterFeedback (tutorialEffect s) = parameterFeedback s
  /\ currentTips (tutorialEffect s) = currentTips s.
Proof. split; tutorial_cases. Qed.

Lemma currentTutorial_tutorialEffect (s : State) :
  currentTutorial (tutorialEffect s) = currentTutorial s.
Proof. tutorial_cases. Qed.

Lemma tutorialActive_tutorialEffect (s : State) :
  tutorialActive (tutorialEffect s) = tutorialActive s.
Proof. tutorial_cases. Qed.

Lemma isRunning_animationEffect (s : State) :
  isRunning (animationEffect s) = isRunning s.
Proof.
  unfold animationEffect; simpl.
  destruct (isRunning s) eqn:E; simpl; auto.
Qed.

Lemma parameters_flush (s : State) : parameters (flush s) = parameters s.
Proof.
  unfold flush. rewrite parameters_tutorialEffect.
  unfold feedbackEffect, animationEffect; simpl.
  destruct (isRunning s) eqn:E; simpl; auto.
Qed.

Lemma forces_flush (s : State) : forces (flush s) = computeForces (parameters s).
Proof.
  unfold flush. rewrite forces_tutorialEffect.
  unfold feedbackEffect, animationEffect; simpl.
  destruct (isRunning s) eqn:E; simpl; auto.
Qed.

Lemma isStalling_flush (s : State) : isStalling (flush s) = stalling (parameters s).
Proof.
  unfold flush. rewrite isStalling_tutorialEffect.
  unfold feedbackEffect, animationEffect; simpl.
  destruct (isRunning s) eqn:E; simpl; auto.
Qed.

Lemma isRunning_flush (s : State) : isRunning (flush s) = isRunning s.
Proof.
  unfold flush. rewrite isRunning_tutorialEffect.
  unfold feedbackEffect, animationEffect; simpl.
  destruct (isRunning s) eqn:E; simpl; auto.
Qed.

Lemma position_flush (s : State) : position (flush s) = position s.
Proof.
  unfold flush. rewrite position_tutorialEffect.
  unfold feedbackEffect, animationEffect; simpl.
  destruct (isRunning s) eqn:E; simpl; auto.
Qed.

Lemma velocity_flush (s : State) : velocity (flush s) = velocity s.
Proof.
  unfold flush. rewrite velocity_tutorialEffect.
  unfold feedbackEffect, animationEffect; simpl.
  destruct (isRunning s) eqn:E; simpl; auto.
Qed.

Lemma currentTutorial_flush (s : State) : currentTutorial (flush s) = currentTutorial s.
Proof.
  unfold flush. rewrite currentTutorial_tutorialEffect.
  unfold feedbackEffect, animationEffect; simpl.
  destruct (isRunning s) eqn:E; simpl; auto.
Qed.

Lemma tutorialActive_flush (s : State) : tutorialActive (flush s) = tutorialActive s.
Proof.
  unfold flush. rewrite tutorialActive_tutorialEffect.
  unfold feedbackEffect, animationEffect; simpl.
  destruct (isRunning s) eqn:E; simpl; auto.
Qed.

Lemma interval_flush (s : State) :
  interval (flush s) =
  if isRunning s then Some (currentClosure (flush s)) else None.
Proof.
  unfold currentClosure.
  rewrite forces_flush, velocity_flush, parameters_flush.
  unfold flush. rewrite interval_tutorialEffect.
  unfold feedbackEffect, animationEffect; simpl.
  destruct (isRunning s) eqn:E; simpl; auto.
Qed.

(** *** The effects settle in one pass *)

Lemma includes_In (l : list nat) (n : nat) : includes l n = true <-> In n l.
Proof.
  unfold includes. rewrite existsb_exists. split.
  - intros [m [Hin Heq]]. apply Nat.eqb_eq in Heq. subst. exact Hin.
  - intro Hin. exists n. split; [exact Hin | apply Nat.eqb_refl].
Qed.

Lemma includes_appended (l : list nat) (n : nat) : includes (l ++ [n]) n = true.
Proof. apply includes_In, in_or_app. right. left. reflexivity. Qed.

Lemma tutorialEffect_idempotent (s : State) :
  tutorialEffect (tutorialEffect s) = tutorialEffect s.
Proof.
  unfold tutorialEffect at 2.
  destruct (negb (tutorialActive s) || (length tutorialSteps <=? currentTutorial s)%nat)
    eqn:G; [unfold tutorialEffect; rewrite G; reflexivity|].
  destruct (nth_error tutorialSteps (currentTutorial s)) as [st|] eqn:N;
    [|unfold tutorialEffect; rewrite G, N; reflexivity].
  destruct (isInformational st) eqn:I;
    [unfold tutorialEffect; rewrite G, N, I; reflexivity|].
  destruct (stepCompleted st (getParameter (target st) (parameters s))
            && negb (includes (completedSteps s) (id st))) eqn:C;
    [|unfold tutorialEffect; rewrite G, N, I, C; reflexivity].
  unfold tutorialEffect. cbn [tutorialActive currentTutorial parameters
    completedSteps withTimeouts setCompletedSteps].
  rewrite G, N, I, C, includes_appended, andb_false_r. reflexivity.
Qed.

Lemma flush_settled (s : State) : settled (flush s).
Proof.
  unfold settled.
  rewrite forces_flush, isStalling_flush, parameters_flush, interval_flush,
    isRunning_flush.
  repeat split; try reflexivity.
  - unfold flush. rewrite (proj1 (feedback_tutorialEffect _)).
    unfold feedbackEffect, animationEffect; simpl.
    destruct (isRunning s) eqn:E; simpl; auto.
  - unfold flush. rewrite (proj2 (feedback_tutorialEffect _)).
    unfold feedbackEffect, animationEffect; simpl.
    destruct (isRunning s) eqn:E; simpl; auto.
  - apply tutorialEffect_idempotent.
Qed.

Lemma settled_flush (s : State) : settled s -> flush s = s.
Proof.
  intros (Hf & Hs & Hi & Hfb & Htips & Ht).
  assert (HP : physicsEffect s = s).
  { unfold physicsEffect. rewrite <- Hf, <- Hs. destruct s; reflexivity. }
  assert (HA : animationEffect s = s).
  { unfold animationEffect.
    cbn [isRunning withInterval forces velocity parameters].
    fold (currentClosure s).
    destruct (isRunning s) eqn:E; simpl;
      unfold withInterval; simpl; rewrite <- Hi; destruct s; reflexivity. }
  assert (HF : feedbackEffect s = s).
  { unfold feedbackEffect. rewrite <- Hfb, <- Htips. destruct s; reflexivity. }
  unfold flush. rewrite HP, HA, HF. exact Ht.
Qed.

Lemma flush_idempotent (s : State) : flush (flush s) = flush s.
Proof. apply settled_flush, flush_settled. Qed.

Lemma reachable_settled (s : State) : reachable s -> settled s.
Proof. intro H; destruct H; apply flush_settled. Qed.

Lemma reachable_flush (s : State) : reachable s -> flush s = s.
Proof. intro H. apply settled_flush, reachable_settled, H. Qed.

(** *** The physics evaluator *)

Lemma stalling_iff (p : FlightParameters) :
  stalling p = true <-> 15 < angleOfAttack p.
Proof. unfold stalling, criticalAngle. apply Qltb_lt. Qed.

Lemma liftBeforeStall_angle (a : Q) (p : FlightParameters) :
  liftBeforeStall (setParameter K_angleOfAttack a p) = liftBeforeStall p.
Proof. reflexivity. Qed.

(** C1.  The stall flag set by the physics effect is true exactly when
    [angleOfAttack] is strictly greater than 15, and the lift it stores is
    then the lift of the same parameters without stall times 0.3, that lift
    being the same at every angle of attack.  With airspeed 250, angle of
    attack 5 and altitude 3000 the flag is false; at angle of attack 20, all
    else equal, it is true and the lift is 0.3 times the former one, a
    drop of 70%. *)
Theorem stall_flag_and_lift_drop :
  forall s : State,
    let p := parameters s in
    let s' := physicsEffect s in
    (isStalling s' = true <-> 15 < angleOfAttack p)
    /\ Forces.lift (forces s') =
       (if isStalling s' then liftBeforeStall p * 0.3 else liftBeforeStall p)
    /\ (forall a : Q,
          Forces.lift (computeForces (setParameter K_angleOfAttack a p)) =
          (if Qltb 15 a then liftBeforeStall p * 0.3 else liftBeforeStall p))
    /\ let p5 := mkParameters 250 5 3000 75 41400 125 1.2 0.025 in
       let p20 := setParameter K_angleOfAttack 20 p5 in
       stalling p5 = false
       /\ stalling p20 = true
       /\ Forces.lift (computeForces p20) = Forces.lift (computeForces p5) * 0.3
       /\ Forces.lift (computeForces p5) - Forces.lift (computeForces p20)
          == 0.7 * Forces.lift (computeForces p5).
Proof.
  intros s p s'. subst s'.
  split; [apply stalling_iff|].
  split; [reflexivity|].
  split; [intro a; reflexivity|].
  intros p5 p20.
  assert (H5 : stalling p5 = false) by reflexivity.
  assert (H20 : stalling p20 = true) by reflexivity.
  assert (L5 : Forces.lift (computeForces p5) = liftBeforeStall p5).
  { unfold computeForces. rewrite H5. reflexivity. }
  assert (L20 : Forces.lift (computeForces p20) = liftBeforeStall p5 * 0.3).
  { unfold computeForces. rewrite H20. reflexivity. }
  split; [exact H5|].
  split; [exact H20|].
  rewrite L20, L5.
  split; [reflexivity | ring].
Qed.

(** C2.  The forces stored by the physics effect, for every parameter
    value: air density, speed in m/s, dynamic pressure, lift (times 0.3
    under stall), drag, thrust and weight, each by the formula of the
    source; the dynamic pressure is half the density times the square of the
    speed, and the thrust is linear in the throttle, 120000 at throttle
    100. *)
Theorem physics_formulas :
  forall s : State,
    let p := parameters s in
    let f := forces (physicsEffect s) in
    airDensity p = 1.225 * Math_exp ((- altitude p) / 8400)
    /\ velocityMs p = airspeed p / 3.6
    /\ dynamicPressure p = 0.5 * airDensity p * velocityMs p * velocityMs p
    /\ dynamicPressure p == 0.5 * airDensity p * (velocityMs p) ^ 2
    /\ Forces.lift f =
       (if stalling p
        then dynamicPressure p * wingArea p * liftCoefficient p * 0.3
        else dynamicPressure p * wingArea p * liftCoefficient p)
    /\ Forces.drag f = dynamicPressure p * wingArea p * dragCoefficient p
    /\ Forces.thrust f = (throttle p / 100) * 120000
    /\ Forces.weight f = weight p * 9.81
    /\ Forces.thrust f == 1200 * throttle p
    /\ Forces.thrust (computeForces (setParameter K_throttle 100 p)) == 120000
    /\ Forces.thrust (computeForces (setParameter K_throttle 0 p)) == 0.
Proof.
  intros s p f. subst f.
  do 3 (split; [reflexivity|]).
  split; [unfold dynamicPressure; ring|].
  do 4 (split; [reflexivity|]).
  unfold physicsEffect, computeForces; simpl. subst p.
  split; [field|].
  split; reflexivity.
Qed.

(** C7.  Two states with equal parameters, whatever else they hold, get
    equal lift, drag, thrust, weight and stall flag from the physics
    effect; running the effect again changes nothing; and in every
    reachable state the stored forces and flag are already those computed
    from the current parameters, so two reachable states with equal
    parameters hold equal forces. *)
Theorem forces_pure_function_of_parameters :
  forall s1 s2 : State,
    parameters s1 = parameters s2 ->
    (forces (physicsEffect s1) = forces (physicsEffect s2)
     /\ isStalling (physicsEffect s1) = isStalling (physicsEffect s2))
    /\ forces (physicsEffect s1) = computeForces (parameters s1)
    /\ physicsEffect (physicsEffect s1) = physicsEffect s1
    /\ (reachable s1 -> physicsEffect s1 = s1)
    /\ (reachable s1 -> reachable s2 ->
        forces s1 = forces s2 /\ isStalling s1 = isStalling s2).
Proof.
  intros s1 s2 Hp.
  split; [unfold physicsEffect; simpl; rewrite Hp; split; reflexivity|].
  split; [reflexivity|].
  split; [reflexivity|].
  split.
  - intro R. apply reachable_settled in R.
    destruct R as (Hf & Hs & _).
    unfold physicsEffect. rewrite <- Hf, <- Hs. destruct s1; reflexivity.
  - intros R1 R2.
    apply reachable_settled in R1, R2.
    destruct R1 as (Hf1 & Hs1 & _), R2 as (Hf2 & Hs2 & _).
    rewrite Hf1, Hf2, Hs1, Hs2, Hp. split; reflexivity.
Qed.

(** *** The feedback classifier *)

Lemma balanced_iff (f : Forces.t) :
  balanced f = true <->
  Qabs (Forces.thrust f - Forces.drag f) < 5000
  /\ Qabs (Forces.lift f - Forces.weight f) < 10000.
Proof.
  unfold balanced, Math_abs. rewrite andb_true_iff, !Qltb_lt. reflexivity.
Qed.

(** C6.  The advisory string the classifier produces is that of the last
    check, in the order low speed, high speed, near-stall, stall, negative
    angle, high altitude, balanced forces, whose condition holds (the empty
    string when none holds): a later check overwrites an earlier one.  So
    the balanced-forces string overwrites every other one, and without
    balanced forces the high-altitude string overwrites the stall string and
    every other one before it. *)
Theorem feedback_last_matching_check_wins :
  forall (p : FlightParameters) (f : Forces.t),
    fst (classify p f) = lastMatching (orderedChecks p f) EmptyString
    /\ fst (classify p f) =
       (if balanced f then feedback_balanced
        else if Qltb 8000 (altitude p) then feedback_highAltitude
        else if Qltb 15 (angleOfAttack p) then feedback_stall
        else fst (checkAngle p (checkAirspeed p (EmptyString, []))))
    /\ (balanced f = true <->
        Qabs (Forces.thrust f - Forces.drag f) < 5000
        /\ Qabs (Forces.lift f - Forces.weight f) < 10000).
Proof.
  intros p f.
  split; [|split; [|apply balanced_iff]].
  - unfold classify, checkBalance, checkAltitude, checkAngle, checkAirspeed,
      orderedChecks, lastMatching, balanced.
    destruct (Qltb (airspeed p) 150) eqn:E1;
      destruct (Qltb 400 (airspeed p)) eqn:E2;
      try (exfalso; q_tests; lra);
      (destruct (Qltb 12 (angleOfAttack p)) eqn:E3;
       destruct (Qleb (angleOfAttack p) 15) eqn:E4;
       destruct (Qltb 15 (angleOfAttack p)) eqn:E5;
       try (exfalso; q_tests; lra);
       destruct (Qltb (angleOfAttack p) 0) eqn:E6;
       try (exfalso; q_tests; lra));
      destruct (Qltb 8000 (altitude p));
      destruct (Qltb (Math_abs (Forces.thrust f - Forces.drag f)) 5000);
      destruct (Qltb (Math_abs (Forces.lift f - Forces.weight f)) 10000);
      reflexivity.
  - unfold classify, checkBalance, checkAltitude.
    destruct (balanced f); [reflexivity|].
    destruct (Qltb 8000 (altitude p)); [reflexivity|].
    unfold checkAngle.
    destruct (Qltb 15 (angleOfAttack p)) eqn:E5; [|reflexivity].
    destruct (Qltb 12 (angleOfAttack p) && Qleb (angleOfAttack p) 15) eqn:E;
      [|reflexivity].
    apply andb_true_iff in E. destruct E as [E3 E4].
    exfalso; q_tests; lra.
Qed.

(** *** The tutorial tracker *)

Lemma tutorialEffect_active (s : State) (st : TutorialStep) :
  tutorialActive s = true ->
  nth_error tutorialSteps (currentTutorial s) = Some st ->
  tutorialEffect s =
  if isInformational st then s
  else if stepCompleted st (getParameter (target st) (parameters s))
          && negb (includes (completedSteps s) (id st))
       then withTimeouts (timeouts s ++ [currentTutorial s])
              (setCompletedSteps (completedSteps s ++ [id st]) s)
       else s.
Proof.
  intros Ha Hn. unfold tutorialEffect. rewrite Ha, Hn.
  assert (Hlt : (currentTutorial s < length tutorialSteps)%nat).
  { apply nth_error_Some. rewrite Hn. discriminate. }
  apply Nat.leb_gt in Hlt. rewrite Hlt. reflexivity.
Qed.

(** The steps of [tutorialSteps] that are not informational: the first
    four, each with a non-zero [minValue] and, if it has one, a non-zero
    [maxValue]. *)
Lemma tutorialSteps_thresholds (n : nat) (st : TutorialStep) :
  nth_error tutorialSteps n = Some st ->
  isInformational st = false ->
  (n < length tutorialSteps - 1)%nat
  /\ forall v : Q, stepCompleted st v = true <-> inDeclaredRange st v.
Proof.
  intros Hn Hi.
  do 5 (destruct n as [|n];
        [ injection Hn as <-;
          first [ discriminate Hi
                | split; [simpl; lia|];
                  intro v; unfold stepCompleted, inDeclaredRange; cbn;
                  fold (Qleb 250 v); fold (Qleb 8 v); fold (Qleb v 12);
                  fold (Qleb 16 v); fold (Qleb 8000 v);
                  rewrite ?andb_true_iff, ?Qleb_le; reflexivity ]
        | simpl in Hn ]).
  destruct n; discriminate Hn.
Qed.

Lemma completedSteps_tutorialEffect (s : State) :
  exists added : list nat,
    completedSteps (tutorialEffect s) = completedSteps s ++ added.
Proof.
  unfold tutorialEffect.
  repeat match goal with
         | |- context [if ?b then _ else _] => destruct b
         | |- context [match nth_error ?l ?n with _ => _ end] => destruct (nth_error l n)
         end;
    try (exists []; rewrite app_nil_r; reflexivity).
  eexists. reflexivity.
Qed.

Lemma completedSteps_flush (s : State) :
  exists added : list nat,
    completedSteps (flush s) = completedSteps s ++ added.
Proof.
  unfold flush.
  destruct (completedSteps_tutorialEffect
              (feedbackEffect (animationEffect (physicsEffect s)))) as [l Hl].
  exists l. rewrite Hl.
  unfold feedbackEffect, animationEffect; simpl.
  destruct (isRunning s) eqn:E; simpl; auto.
Qed.

Lemma completedSteps_handle (e : Event) (s : State) :
  e <> StartTutorial -> completedSteps (handle e s) = completedSteps s.
Proof.
  intro He. destruct e; try reflexivity; try congruence; simpl.
  - unfold selectAircraft.
    destruct (lookupPreset aircraftPresets aircraftId); [|reflexivity].
    destruct (String.eqb aircraftId "hot-air-balloon"); reflexivity.
  - destruct (tutorialActive s); reflexivity.
  - unfold tutorialNext.
    destruct (tutorialActive s); [|reflexivity].
    destruct (currentTutorial s <? length tutorialSteps - 1)%nat; reflexivity.
  - destruct (interval s); reflexivity.
  - destruct (timeouts s) as [|c rest]; [reflexivity|].
    unfold timeoutCallback.
    destruct (c <? length tutorialSteps - 1)%nat; reflexivity.
Qed.

Lemma completedSteps_step (e : Event) (s : State) :
  e <> StartTutorial ->
  exists added : list nat,
    completedSteps (step e s) = completedSteps s ++ added.
Proof.
  intro He. unfold step.
  destruct (completedSteps_flush (handle e s)) as [l Hl].
  exists l. rewrite Hl, completedSteps_handle by exact He. reflexivity.
Qed.

Lemma fold_left_cons {A B : Type} (f : A -> B -> A) (b : B) (l : list B) (a : A) :
  fold_left f (b :: l) a = fold_left f l (f a b).
Proof. reflexivity. Qed.

Lemma run_cons (e : Event) (es : list Event) (s : State) :
  run (e :: es) s = run es (step e s).
Proof. unfold run. rewrite fold_left_cons. reflexivity. Qed.

Lemma reachable_run (es : list Event) (s : State) :
  reachable s -> reachable (run es s).
Proof.
  revert s. induction es as [|e es IH]; intros s R; [exact R|].
  rewrite run_cons. apply IH, reachable_step, R.
Qed.

(** Start Tutorial, pressed at any time, starts over with no step
    completed. *)
Remark startTutorial_starts_over (s : State) :
  completedSteps (startTutorial s) = []
  /\ currentTutorial (startTutorial s) = 0%nat
  /\ tutorialActive (startTutorial s) = true.
Proof. repeat split. Qed.

Lemma stepCompleted_first (v : Q) :
  stepCompleted (mkStep 1 "Understanding Airspeed" K_airspeed (Some 250) None false) v
  = Qleb 250 v.
Proof. reflexivity. Qed.

(** What Start Tutorial leaves of the completed steps once the effects
    have run: nothing, or the first step if the airspeed completes it at
    once. *)
Lemma completedSteps_startTutorial (s : State) :
  completedSteps (step StartTutorial s)
  = (if Qleb 250 (airspeed (parameters s)) then [1%nat] else []).
Proof.
  unfold step, flush.
  set (x := feedbackEffect (animationEffect (physicsEffect (handle StartTutorial s)))).
  assert (Ha : tutorialActive x = true) by reflexivity.
  assert (Hn : nth_error tutorialSteps (currentTutorial x)
               = Some (mkStep 1 "Understanding Airspeed" K_airspeed
                              (Some 250) None false)) by reflexivity.
  rewrite (tutorialEffect_active x _ Ha Hn).
  cbn [isInformational]. rewrite stepCompleted_first.
  assert (Hp : getParameter K_airspeed (parameters x) = airspeed (parameters s))
    by reflexivity.
  cbn [target id]. rewrite Hp.
  assert (Hc : completedSteps x = []) by reflexivity.
  rewrite Hc. cbn [includes existsb negb]. rewrite andb_true_r.
  destruct (Qleb 250 (airspeed (parameters s)));
    cbn [completedSteps withTimeouts setCompletedSteps];
    rewrite ?Hc; reflexivity.
Qed.

(** C3, as the code has it.  No operation other than Start Tutorial
    removes a completed step id: after any events without Start Tutorial the
    list is the earlier list with ids appended, so every id recorded before
    is still recorded.  Start Tutorial, which can be pressed at any time,
    empties the list; once the effects have run after it, the list holds
    the first step alone if the airspeed is 250 or more and is empty
    otherwise. *)
Theorem completedSteps_grow_except_startTutorial :
  forall (es : list Event) (s : State),
    Forall (fun e => e <> StartTutorial) es ->
    ((exists added : list nat,
         completedSteps (run es s) = completedSteps s ++ added)
     /\ incl (completedSteps s) (completedSteps (run es s)))
    /\ completedSteps (startTutorial s) = []
    /\ completedSteps (step StartTutorial s)
       = (if Qleb 250 (airspeed (parameters s)) then [1%nat] else []).
Proof.
  assert (H : forall es s, Forall (fun e => e <> StartTutorial) es ->
              exists added, completedSteps (run es s) = completedSteps s ++ added).
  { induction es as [|e es IH]; intros s Hs.
    - exists []. rewrite app_nil_r. reflexivity.
    - inversion Hs as [|? ? He Hes]; subst.
      destruct (completedSteps_step e s He) as [l1 Hl1].
      destruct (IH (step e s) Hes) as [l2 Hl2].
      exists (l1 ++ l2).
      rewrite run_cons, Hl2, Hl1, app_assoc. reflexivity. }
  intros es s Hs.
  split; [|split; [reflexivity | apply completedSteps_startTutorial]].
  split; [apply H, Hs|].
  destruct (H es s Hs) as [l Hl]. rewrite Hl. apply incl_appl, incl_refl.
Qed.

(** Every recorded id is the id of a step that is not informational. *)
Lemma completedSteps_tutorialEffect_added (s : State) :
  completedSteps (tutorialEffect s) = completedSteps s
  \/ exists st : TutorialStep,
       In st tutorialSteps /\ isInformational st = false
       /\ completedSteps (tutorialEffect s) = completedSteps s ++ [id st].
Proof.
  unfold tutorialEffect.
  destruct (negb (tutorialActive s) || (length tutorialSteps <=? currentTutorial s)%nat);
    [left; reflexivity|].
  destruct (nth_error tutorialSteps (currentTutorial s)) as [st|] eqn:N;
    [|left; reflexivity].
  destruct (isInformational st) eqn:I; [left; reflexivity|].
  destruct (stepCompleted st (getParameter (target st) (parameters s))
            && negb (includes (completedSteps s) (id st))); [|left; reflexivity].
  right. exists st. split; [eapply nth_error_In; exact N|].
  split; [exact I | reflexivity].
Qed.

Lemma completedSteps_handle_cases (e : Event) (s : State) :
  completedSteps (handle e s) = completedSteps s
  \/ completedSteps (handle e s) = [].
Proof.
  destruct e; try (left; apply completedSteps_handle; discriminate).
  right. reflexivity.
Qed.

Lemma reachable_completed_not_informational (s : State) :
  reachable s ->
  forall n : nat,
    In n (completedSteps s) ->
    exists st : TutorialStep,
      In st tutorialSteps /\ isInformational st = false /\ id st = n.
Proof.
  assert (Hflush : forall x : State,
             (forall n, In n (completedSteps x) ->
                        exists st, In st tutorialSteps
                                   /\ isInformational st = false /\ id st = n) ->
             forall n, In n (completedSteps (flush x)) ->
                       exists st, In st tutorialSteps
                                  /\ isInformational st = false /\ id st = n).
  { intros x Hx n. unfold flush.
    destruct (completedSteps_tutorialEffect_added
                (feedbackEffect (animationEffect (physicsEffect x))))
      as [H|(st & Hin & Hi & H)]; rewrite H; clear H;
      unfold feedbackEffect, animationEffect; simpl;
      destruct (isRunning x) eqn:E; simpl; try apply Hx;
      (intro Hn; apply in_app_or in Hn; destruct Hn as [Hn|[<-|[]]];
       [apply Hx, Hn | exists st; auto]). }
  induction 1 as [|e s R IH]; apply Hflush.
  - intros n [].
  - destruct (completedSteps_handle_cases e s) as [H|H]; rewrite H.
    + exact IH.
    + intros n [].
Qed.

Lemma tutorialSteps_id_informational (st st' : TutorialStep) :
  In st tutorialSteps -> In st' tutorialSteps -> id st = id st' ->
  isInformational st = isInformational st'.
Proof.
  unfold tutorialSteps. simpl.
  intros H H' Hid.
  repeat match goal with
         | H : _ \/ _ |- _ => destruct H as [H|H]
         | H : False |- _ => destruct H
         end; subst; simpl in Hid; try discriminate Hid; reflexivity.
Qed.

(** C5.  While the tutorial is active: on an informational step the
    tracker does nothing, and in a reachable state the id of that step is
    not recorded.  On any other step of [tutorialSteps], the test
    of the tracker is that the tracked value lies in the declared range;
    after the tracker has run the step id is recorded exactly when the
    value is in range or the id was recorded already; the id is appended,
    and a time-out armed, exactly when the value is in range and the id was
    not yet recorded, and otherwise nothing changes; no recorded id is
    removed; and the time-out, when it fires, moves [currentTutorial] to the
    next step. *)
Theorem tutorial_step_completion :
  forall (s : State) (st : TutorialStep),
    tutorialActive s = true ->
    nth_error tutorialSteps (currentTutorial s) = Some st ->
    let value := getParameter (target st) (parameters s) in
    let s' := tutorialEffect s in
    if isInformational st
    then s' = s /\ (reachable s -> ~ In (id st) (completedSteps s'))
    else
      (stepCompleted st value = true <-> inDeclaredRange st value)
      /\ (In (id st) (completedSteps s') <->
          inDeclaredRange st value \/ In (id st) (completedSteps s))
      /\ s' = (if stepCompleted st value
                  && negb (includes (completedSteps s) (id st))
               then withTimeouts (timeouts s ++ [currentTutorial s])
                      (setCompletedSteps (completedSteps s ++ [id st]) s)
               else s)
      /\ incl (completedSteps s) (completedSteps s')
      /\ currentTutorial (timeoutCallback (currentTutorial s) s')
         = (currentTutorial s + 1)%nat.
Proof.
  intros s st Ha Hn value s'.
  pose proof (tutorialEffect_active s st Ha Hn) as Heq.
  destruct (isInformational st) eqn:Hi.
  { split; [exact Heq|].
    intros R Hin. subst s'. rewrite Heq in Hin.
    destruct (reachable_completed_not_informational s R _ Hin)
      as (st' & Hin' & Hi' & Hid).
    apply nth_error_In in Hn.
    rewrite (tutorialSteps_id_informational st' st Hin' Hn Hid) in Hi'.
    congruence. }
  destruct (tutorialSteps_thresholds _ _ Hn Hi) as [Hlt Hrange].
  fold value in Heq. fold s' in Heq.
  split; [apply Hrange|].
  split.
  - rewrite Heq, <- Hrange.
    destruct (stepCompleted st value) eqn:C;
      destruct (includes (completedSteps s) (id st)) eqn:I; simpl.
    + apply includes_In in I. tauto.
    + split; [auto|]. intros _. apply in_or_app. right. left. reflexivity.
    + apply includes_In in I. tauto.
    + split; [auto|]. intros [H|H]; [discriminate H|exact H].
  - split; [exact Heq|].
    split.
    + destruct (completedSteps_tutorialEffect s) as [l Hl].
      subst s'. rewrite Hl. apply incl_appl, incl_refl.
    + unfold timeoutCallback.
      apply Nat.ltb_lt in Hlt. rewrite Hlt.
      subst s'. cbn [currentTutorial setCurrentTutorial].
      rewrite currentTutorial_tutorialEffect. reflexivity.
Qed.

(** *** The animation tick *)

Lemma clamp_range (lo hi v : Q) :
  lo <= hi -> lo <= Math_max lo (Math_min hi v) <= hi.
Proof.
  intro H. unfold Math_max, Math_min. split.
  - apply Q.le_max_l.
  - apply Q.max_lub; [exact H | apply Q.le_min_l].
Qed.

Lemma intervalCallback_inCanvas (c : IntervalClosure) (s : State) :
  inCanvas (position (intervalCallback c s)).
Proof.
  unfold inCanvas, intervalCallback, integrate.
  cbn [position setVelocity setPosition fst snd Position.x Position.y].
  split; apply clamp_range; discriminate.
Qed.

Lemma position_handle (e : Event) (s : State) :
  position (handle e s) = position s
  \/ position (handle e s) = Position.mk 400 300 0
  \/ exists c, position (handle e s) = position (intervalCallback c s).
Proof.
  destruct e; simpl; auto.
  - left. unfold selectAircraft.
    destruct (lookupPreset aircraftPresets aircraftId); [|reflexivity].
    destruct (String.eqb aircraftId "hot-air-balloon"); reflexivity.
  - left. destruct (tutorialActive s); reflexivity.
  - left. unfold tutorialNext.
    destruct (tutorialActive s); [|reflexivity].
    destruct (currentTutorial s <? length tutorialSteps - 1)%nat; reflexivity.
  - destruct (interval s) as [c|]; [|auto].
    right. right. exists c. reflexivity.
  - left. destruct (timeouts s) as [|c rest]; [reflexivity|].
    unfold timeoutCallback.
    destruct (c <? length tutorialSteps - 1)%nat; reflexivity.
Qed.

Lemma reachable_inCanvas (s : State) : reachable s -> inCanvas (position s).
Proof.
  induction 1 as [|e s R IH].
  - unfold initialState. rewrite position_flush.
    unfold inCanvas; simpl. repeat split; discriminate.
  - unfold step. rewrite position_flush.
    destruct (position_handle e s) as [H|[H|[c H]]]; rewrite H.
    + exact IH.
    + unfold inCanvas; simpl. repeat split; discriminate.
    + apply intervalCallback_inCanvas.
Qed.

(** C10.  The position an integration tick writes lies in the canvas,
    [50 <= x <= 750] and [50 <= y <= 550], whatever the forces, the
    velocity and the parameters the tick computes with and whatever the
    position before; hence so does the position of every reachable state,
    and of the state after a tick from it. *)
Theorem position_clamped_to_canvas :
  forall (c : IntervalClosure) (s0 s : State),
    reachable s ->
    inCanvas (position (intervalCallback c s0))
    /\ inCanvas (position s)
    /\ inCanvas (position (step IntervalTick s)).
Proof.
  intros c s0 s R.
  split; [apply intervalCallback_inCanvas|].
  split; [apply reachable_inCanvas, R|].
  apply reachable_inCanvas, reachable_step, R.
Qed.

Lemma step_tick_stopped (s : State) :
  reachable s -> isRunning s = false -> step IntervalTick s = s.
Proof.
  intros R Hr.
  pose proof (reachable_settled s R) as (_ & _ & Hi & _).
  rewrite Hr in Hi.
  unfold step. simpl. rewrite Hi. apply reachable_flush, R.
Qed.

(** C8.  In every reachable state the interval callback is registered
    exactly when the running flag is set, with the current forces and
    velocity.  A tick in a state whose flag is set writes the position and
    the velocity of one Euler step; a tick in a state whose flag is cleared
    changes nothing at all.  So whenever an event leaves the flag cleared,
    as Reset and Start Tutorial always do and Pause does, the next tick
    changes nothing. *)
Theorem integration_only_while_running :
  forall s : State,
    reachable s ->
    interval s = (if isRunning s then Some (currentClosure s) else None)
    /\ (if isRunning s
        then position (step IntervalTick s)
             = fst (integrate (currentClosure s) (position s))
             /\ velocity (step IntervalTick s)
                = snd (integrate (currentClosure s) (position s))
        else step IntervalTick s = s)
    /\ (forall e : Event,
          isRunning (step e s) = false ->
          step IntervalTick (step e s) = step e s)
    /\ isRunning (step ResetSimulation s) = false
    /\ isRunning (step StartTutorial s) = false
    /\ isRunning (step ToggleRunning s) = negb (isRunning s).
Proof.
  intros s R.
  pose proof (reachable_settled s R) as (_ & _ & Hi & _).
  split; [exact Hi|].
  split; [|split].
  - destruct (isRunning s) eqn:Hr.
    + unfold step. rewrite position_flush, velocity_flush.
      simpl. rewrite Hi. split; reflexivity.
    + apply step_tick_stopped; assumption.
  - intros e He. apply step_tick_stopped; [apply reachable_step, R|exact He].
  - unfold step. rewrite !isRunning_flush. repeat split.
Qed.

(** *** Reset *)

Lemma flush_withInterval (i : option IntervalClosure) (s : State) :
  flush (withInterval i s) = flush s.
Proof.
  unfold flush. f_equal.
Qed.

Lemma tutorialEffect_resetSimulation (s : State) :
  tutorialEffect s = s ->
  tutorialEffect (withInterval None (resetSimulation s))
  = withInterval None (resetSimulation s).
Proof.
  unfold tutorialEffect, resetSimulation.
  cbn [tutorialActive currentTutorial parameters completedSteps timeouts
       withInterval setVelocity setPosition setIsRunning].
  destruct (negb (tutorialActive s) || (length tutorialSteps <=? currentTutorial s)%nat);
    [reflexivity|].
  destruct (nth_error tutorialSteps (currentTutorial s)) as [st|]; [|reflexivity].
  destruct (isInformational st); [reflexivity|].
  destruct (stepCompleted st (getParameter (target st) (parameters s))
            && negb (includes (completedSteps s) (id st))); [|reflexivity].
  intro H. apply (f_equal completedSteps) in H. simpl in H.
  exfalso. apply (f_equal (@length nat)) in H.
  rewrite length_app in H. simpl in H. lia.
Qed.

Lemma step_resetSimulation (s : State) :
  reachable s ->
  step ResetSimulation s = withInterval None (resetSimulation s).
Proof.
  intro R.
  pose proof (reachable_settled s R) as (Hf & Hs & _ & Hfb & Htips & Ht).
  unfold step. simpl handle.
  rewrite <- (flush_withInterval None).
  apply settled_flush. unfold settled.
  split; [exact Hf|]. split; [exact Hs|]. split; [reflexivity|].
  split; [exact Hfb|]. split; [exact Htips|].
  apply tutorialEffect_resetSimulation, Ht.
Qed.

(** C9.  [resetSimulation] sets the running flag to false, the position to
    (400, 300, 0) and the velocity to (0, 0, 0), and leaves every other
    useState cell as it was: parameters, forces, stall flag, tutorial flag,
    tutorial index, completed steps, selected aircraft and model, feedback,
    tips, the three display toggles and the pending time-outs.  Once the
    effects have run after it, from a reachable state, nothing else has
    changed either: only the interval of the animation effect is cleared. *)
Theorem resetSimulation_frame :
  forall s : State,
    let s' := resetSimulation s in
    (isRunning s' = false
     /\ position s' = Position.mk 400 300 0
     /\ velocity s' = Velocity.mk 0 0 0)
    /\ (parameters s' = parameters s
        /\ forces s' = forces s
        /\ isStalling s' = isStalling s
        /\ tutorialActive s' = tutorialActive s
        /\ currentTutorial s' = currentTutorial s
        /\ completedSteps s' = completedSteps s
        /\ selectedAircraft s' = selectedAircraft s)
    /\ (selectedModel s' = selectedModel s
        /\ parameterFeedback s' = parameterFeedback s
        /\ currentTips s' = currentTips s
        /\ showHints s' = showHints s
        /\ showAdvancedMetrics s' = showAdvancedMetrics s
        /\ voiceEnabled s' = voiceEnabled s
        /\ timeouts s' = timeouts s
        /\ interval s' = interval s)
    /\ (reachable s -> step ResetSimulation s = withInterval None s').
Proof.
  intros s s'. subst s'.
  split; [repeat split|].
  split; [repeat split|].
  split; [repeat split|].
  apply step_resetSimulation.
Qed.

(** *** The airspeed *)

Lemma airspeed_selectAircraft (aircraftId : string) (s : State) :
  airspeed (parameters (selectAircraft aircraftId s)) =
  if String.eqb aircraftId "hot-air-balloon" then 30
  else airspeed (parameters s).
Proof.
  destruct (String.eqb aircraftId "hot-air-balloon") eqn:E.
  - apply String.eqb_eq in E. subst aircraftId. reflexivity.
  - unfold selectAircraft. rewrite E.
    destruct (lookupPreset aircraftPresets aircraftId); reflexivity.
Qed.

(** C4, as the code has it.  From a state whose airspeed lies in
    [50, 500], a slider change with a value of the slider's range and every
    other operation except the selection of the hot-air balloon leave the
    airspeed in [50, 500]; the selection of the hot-air balloon sets it
    to 30. *)
Theorem airspeed_range_except_balloon :
  forall (e : Event) (s : State),
    fromWidget e ->
    50 <= airspeed (parameters s) <= 500 ->
    if selectsBalloon e
    then airspeed (parameters (step e s)) = 30
    else 50 <= airspeed (parameters (step e s)) <= 500.
Proof.
  intros e s Hw Hs. unfold step. rewrite parameters_flush.
  destruct e; cbn [selectsBalloon handle]; try exact Hs.
  - destruct w; cbn; try exact Hs. exact Hw.
  - rewrite airspeed_selectAircraft.
    destruct (String.eqb aircraftId "hot-air-balloon"); [reflexivity|exact Hs].
  - destruct (tutorialActive s); exact Hs.
  - unfold tutorialNext. destruct (tutorialActive s); [|exact Hs].
    destruct (currentTutorial s <? length tutorialSteps - 1)%nat; exact Hs.
  - destruct (interval s); exact Hs.
  - destruct (timeouts s) as [|c rest]; [exact Hs|].
    unfold timeoutCallback.
    destruct (c <? length tutorialSteps - 1)%nat; exact Hs.
Qed.

(** ** Further properties *)

(** *** Running the effects after a handler *)

Lemma tutorialEffect_transfer (s s' : State) :
  tutorialActive s' = tutorialActive s ->
  currentTutorial s' = currentTutorial s ->
  parameters s' = parameters s ->
  completedSteps s' = completedSteps s ->
  tutorialEffect s = s ->
  tutorialEffect s' = s'.
Proof.
  intros Ha Hc Hp Hd. unfold tutorialEffect. rewrite Ha, Hc, Hp, Hd.
  destruct (negb (tutorialActive s) || (length tutorialSteps <=? currentTutorial s)%nat);
    [reflexivity|].
  destruct (nth_error tutorialSteps (currentTutorial s)) as [st|]; [|reflexivity].
  destruct (isInformational st); [reflexivity|].
  destruct (stepCompleted st (getParameter (target st) (parameters s))
            && negb (includes (completedSteps s) (id st))); [|reflexivity].
  intro H. apply (f_equal completedSteps) in H. simpl in H.
  exfalso. apply (f_equal (@length nat)) in H.
  rewrite length_app in H. simpl in H. lia.
Qed.

(** When only the running flag, the position, the velocity or cells no
    effect reads have changed, the animation effect is the only one with
    something to do. *)
Lemma flush_animation_only (x : State) :
  forces x = computeForces (parameters x) ->
  isStalling x = stalling (parameters x) ->
  parameterFeedback x = fst (classify (parameters x) (forces x)) ->
  currentTips x = snd (classify (parameters x) (forces x)) ->
  tutorialEffect x = x ->
  flush x = animationEffect x.
Proof.
  intros Hf Hs Hfb Htips Ht.
  assert (HP : physicsEffect x = x).
  { unfold physicsEffect. rewrite <- Hf, <- Hs. destruct x; reflexivity. }
  assert (HF : feedbackEffect (animationEffect x) = animationEffect x).
  { unfold feedbackEffect, animationEffect.
    cbn [isRunning withInterval forces velocity parameters].
    destruct (isRunning x) eqn:E;
      cbn [negb parameters forces withInterval];
      rewrite <- Hfb, <- Htips; destruct x; reflexivity. }
  unfold flush. rewrite HP, HF.
  apply (tutorialEffect_transfer x); try exact Ht;
    unfold animationEffect; cbn [isRunning withInterval];
    destruct (isRunning x); reflexivity.
Qed.

Lemma widgetReachable_reachable (s : State) : widgetReachable s -> reachable s.
Proof.
  induction 1 as [|e s _ IH _]; [apply reachable_init | apply reachable_step, IH].
Qed.

(** *** The parameter store *)

Ltac handler_cases s :=
  unfold tutorialPrevious, tutorialNext, timeoutCallback, intervalCallback;
  repeat match goal with
         | |- context [if ?b then _ else _] => destruct b
         | |- context [match interval s with _ => _ end] => destruct (interval s)
         | |- context [match timeouts s with _ => _ end] => destruct (timeouts s)
         end;
  try reflexivity.

Lemma parameters_selectAircraft (aircraftId : string) (s : State) :
  parameters (selectAircraft aircraftId s) =
  match lookupPreset aircraftPresets aircraftId with
  | None => parameters s
  | Some preset =>
      let p := setParameter K_wingArea (preset_wingArea preset)
                 (setParameter K_weight (preset_weight preset) (parameters s)) in
      if String.eqb aircraftId "hot-air-balloon"
      then setParameter K_throttle 50
             (setParameter K_angleOfAttack 0 (setParameter K_airspeed 30 p))
      else p
  end.
Proof.
  unfold selectAircraft.
  destruct (lookupPreset aircraftPresets aircraftId); [|reflexivity].
  destruct (String.eqb aircraftId "hot-air-balloon"); reflexivity.
Qed.

Lemma parameters_handle (e : Event) (s : State) :
  parameters (handle e s) =
  match e with
  | SliderChange w value => setParameter (sliderKey w) value (parameters s)
  | SelectAircraft aircraftId => parameters (selectAircraft aircraftId s)
  | _ => parameters s
  end.
Proof. destruct e; simpl; handler_cases s. Qed.

Lemma lookupPreset_In (presets : list (string * AircraftPreset))
      (aircraftId : string) (preset : AircraftPreset) :
  lookupPreset presets aircraftId = Some preset -> In (aircraftId, preset) presets.
Proof.
  induction presets as [|[k v] rest IH]; simpl; [discriminate|].
  destruct (String.eqb k aircraftId) eqn:E.
  - intro H. injection H as <-. apply String.eqb_eq in E. subst. left. reflexivity.
  - intro H. right. apply IH, H.
Qed.

Lemma lookupPreset_key (presets : list (string * AircraftPreset)) (aircraftId : string) :
  In aircraftId (map fst presets) ->
  exists preset : AircraftPreset, lookupPreset presets aircraftId = Some preset.
Proof.
  induction presets as [|[k v] rest IH]; simpl; [intros []|].
  intros [H|H].
  - subst. rewrite String.eqb_refl. exists v. reflexivity.
  - destruct (String.eqb k aircraftId); [exists v; reflexivity | apply IH, H].
Qed.

Lemma lookupPreset_None (presets : list (string * AircraftPreset)) (aircraftId : string) :
  lookupPreset presets aircraftId = None <-> ~ In aircraftId (map fst presets).
Proof.
  split.
  - intros H Hin. destruct (lookupPreset_key _ _ Hin) as [v Hv]. congruence.
  - intro H. destruct (lookupPreset presets aircraftId) as [v|] eqn:E; [|reflexivity].
    exfalso. apply H. apply lookupPreset_In in E.
    apply (in_map fst) in E. exact E.
Qed.

(** X1: reading and writing a parameter by its key.  A key reads back the
    value written to it and every other key reads as before; of two writes
    to a key the later one stays; writing back the value read changes
    nothing. *)
Theorem parameter_update_laws :
  forall (k k' : ParameterKey) (v v' : Q) (p : FlightParameters),
    getParameter k' (setParameter k v p)
    = (if keyEqb k k' then v else getParameter k' p)
    /\ setParameter k v' (setParameter k v p) = setParameter k v' p
    /\ setParameter k (getParameter k p) p = p
    /\ (keyEqb k k' = true <-> k = k').
Proof.
  intros k k' v v' p.
  split; [destruct k, k'; reflexivity|].
  split; [destruct k; reflexivity|].
  split; [destruct k, p; reflexivity|].
  destruct k, k'; simpl; split; intro H; try reflexivity; discriminate H.
Qed.

Lemma widgetReachable_inRange (s : State) :
  widgetReachable s -> parametersInRange (parameters s).
Proof.
  induction 1 as [|e s R IH Hw].
  - unfold initialState. rewrite parameters_flush.
    unfold parametersInRange; simpl. repeat split; discriminate.
  - unfold step. rewrite parameters_flush, parameters_handle.
    destruct IH as ((A1 & A2) & (B1 & B2) & (C1 & C2) & (D1 & D2)).
    destruct e; try (repeat split; assumption).
    + destruct w; unfold fromWidget, inSliderRange in Hw; simpl in Hw;
        destruct Hw as [Hlo Hhi];
        unfold parametersInRange; cbn; repeat split; try assumption; lra.
    + rewrite parameters_selectAircraft.
      destruct (lookupPreset aircraftPresets aircraftId);
        [|repeat split; assumption].
      destruct (String.eqb aircraftId "hot-air-balloon");
        unfold parametersInRange; cbn; repeat split; try assumption;
        discriminate.
Qed.

(** X2: the adjustable parameters stay in range.  In every state the
    widgets can lead to, the angle of attack lies in [-10, 25], the altitude
    in [0, 12000], the throttle in [0, 100] and the airspeed in [30, 500]
    (30 being what the hot-air balloon sets). *)
Theorem parameters_stay_in_range :
  forall s : State, widgetReachable s -> parametersInRange (parameters s).
Proof. exact widgetReachable_inRange. Qed.

(** The airframe constants of a parameter value: the two coefficients the
    component starts with and the weight and wing area of one preset. *)
Lemma airframe_handle (e : Event) (s : State) :
  (liftCoefficient (parameters s) = 1.2
   /\ dragCoefficient (parameters s) = 0.025
   /\ exists aircraftId preset,
       In (aircraftId, preset) aircraftPresets
       /\ weight (parameters s) = preset_weight preset
       /\ wingArea (parameters s) = preset_wingArea preset) ->
  liftCoefficient (parameters (handle e s)) = 1.2
  /\ dragCoefficient (parameters (handle e s)) = 0.025
  /\ exists aircraftId preset,
      In (aircraftId, preset) aircraftPresets
      /\ weight (parameters (handle e s)) = preset_weight preset
      /\ wingArea (parameters (handle e s)) = preset_wingArea preset.
Proof.
  intros (Hl & Hd & Hp). rewrite parameters_handle.
  destruct e; try (split; [exact Hl|]; split; [exact Hd|]; exact Hp).
  - destruct w; cbn; (split; [exact Hl|]; split; [exact Hd|]; exact Hp).
  - rewrite parameters_selectAircraft.
    destruct (lookupPreset aircraftPresets aircraftId) as [preset|] eqn:E;
      [|split; [exact Hl|]; split; [exact Hd|]; exact Hp].
    apply lookupPreset_In in E.
    destruct (String.eqb aircraftId "hot-air-balloon"); cbn;
      (split; [exact Hl|]; split; [exact Hd|];
       exists aircraftId, preset; split; [exact E|]; split; reflexivity).
Qed.

Lemma preset_positive (aircraftId : string) (preset : AircraftPreset) :
  In (aircraftId, preset) aircraftPresets ->
  0 < preset_weight preset /\ 0 < preset_wingArea preset.
Proof.
  unfold aircraftPresets. simpl. intro H.
  repeat match goal with
         | H : _ \/ _ |- _ => destruct H as [H|H]
         | H : False |- _ => destruct H
         | H : (_, _) = (_, _) |- _ => injection H as _ <-
         end; split; reflexivity.
Qed.

Lemma reachable_airframe :
  forall s : State,
    reachable s ->
    liftCoefficient (parameters s) = 1.2
    /\ dragCoefficient (parameters s) = 0.025
    /\ (exists aircraftId preset,
          In (aircraftId, preset) aircraftPresets
          /\ weight (parameters s) = preset_weight preset
          /\ wingArea (parameters s) = preset_wingArea preset)
    /\ 0 < weight (parameters s)
    /\ 0 < wingArea (parameters s).
Proof.
  assert (H : forall s, reachable s ->
              liftCoefficient (parameters s) = 1.2
              /\ dragCoefficient (parameters s) = 0.025
              /\ exists aircraftId preset,
                  In (aircraftId, preset) aircraftPresets
                  /\ weight (parameters s) = preset_weight preset
                  /\ wingArea (parameters s) = preset_wingArea preset).
  { induction 1 as [|e s R IH].
    - unfold initialState. rewrite parameters_flush.
      split; [reflexivity|]. split; [reflexivity|].
      exists "boeing-737"%string. eexists. split; [left; reflexivity|].
      split; reflexivity.
    - unfold step. rewrite parameters_flush. apply airframe_handle, IH. }
  intros s R. destruct (H s R) as (Hl & Hd & Hp).
  split; [exact Hl|]. split; [exact Hd|]. split; [exact Hp|].
  destruct Hp as (aircraftId & preset & Hin & Hw & Ha).
  rewrite Hw, Ha. exact (preset_positive _ _ Hin).
Qed.

(** X3: the airframe.  In every state the widgets can lead to the lift and drag
    coefficients are 1.2 and 0.025, the weight and the wing area are those
    of one entry of [aircraftPresets], and both are positive: the mass the
    tick divides by is never zero. *)
Theorem airframe_constants :
  forall s : State,
    widgetReachable s ->
    liftCoefficient (parameters s) = 1.2
    /\ dragCoefficient (parameters s) = 0.025
    /\ (exists aircraftId preset,
          In (aircraftId, preset) aircraftPresets
          /\ weight (parameters s) = preset_weight preset
          /\ wingArea (parameters s) = preset_wingArea preset)
    /\ 0 < weight (parameters s)
    /\ 0 < wingArea (parameters s).
Proof. intros s W. apply reachable_airframe, widgetReachable_reachable, W. Qed.

Lemma selectedAircraft_flush (s : State) :
  selectedAircraft (flush s) = selectedAircraft s
  /\ selectedModel (flush s) = selectedModel s.
Proof.
  unfold flush.
  assert (H : forall x, selectedAircraft (tutorialEffect x) = selectedAircraft x
                        /\ selectedModel (tutorialEffect x) = selectedModel x).
  { intro x. split; tutorial_cases. }
  rewrite (proj1 (H _)), (proj2 (H _)).
  unfold feedbackEffect, animationEffect; simpl.
  destruct (isRunning s) eqn:E; simpl; auto.
Qed.

Lemma selection_handle (e : Event) (s : State) :
  match e with
  | SelectAircraft _ => True
  | _ => selectedAircraft (handle e s) = selectedAircraft s
         /\ selectedModel (handle e s) = selectedModel s
         /\ weight (parameters (handle e s)) = weight (parameters s)
         /\ wingArea (parameters (handle e s)) = wingArea (parameters s)
  end.
Proof.
  destruct e; try exact I; cbn [handle]; try (repeat split; fail).
  - destruct w; repeat split.
  - destruct (tutorialActive s); repeat split.
  - unfold tutorialNext. destruct (tutorialActive s); [|repeat split].
    destruct (currentTutorial s <? length tutorialSteps - 1)%nat; repeat split.
  - destruct (interval s); repeat split.
  - destruct (timeouts s) as [|c rest]; [repeat split|].
    unfold timeoutCallback.
    destruct (c <? length tutorialSteps - 1)%nat; repeat split.
Qed.

Lemma widgetReachable_selection :
  forall s : State,
    widgetReachable s ->
    exists preset : AircraftPreset,
      lookupPreset aircraftPresets (selectedAircraft s) = Some preset
      /\ weight (parameters s) = preset_weight preset
      /\ wingArea (parameters s) = preset_wingArea preset
      /\ selectedModel s = preset_modelPath preset.
Proof.
  induction 1 as [|e s R IH Hw].
  - unfold initialState.
    rewrite (proj1 (selectedAircraft_flush _)), (proj2 (selectedAircraft_flush _)),
      parameters_flush.
    eexists. split; [reflexivity|]. repeat split.
  - unfold step.
    rewrite (proj1 (selectedAircraft_flush _)), (proj2 (selectedAircraft_flush _)),
      parameters_flush.
    destruct IH as (preset & Hl & Hwt & Har & Hm).
    pose proof (selection_handle e s) as He.
    destruct e;
      try (destruct He as (E1 & E2 & E3 & E4); rewrite E1, E2, E3, E4;
           exists preset; repeat split; assumption).
    unfold fromWidget in Hw. destruct (lookupPreset_key _ _ Hw) as [pr Hpr].
    exists pr. simpl handle. unfold selectAircraft. rewrite Hpr.
    destruct (String.eqb aircraftId "hot-air-balloon");
      cbn [selectedAircraft selectedModel parameters setSelectedModel
           updateParameter setParameters setSelectedAircraft setParameter
           weight wingArea];
      repeat split; exact Hpr.
Qed.

(** X4: the selected aircraft.  In every state the widgets can lead to,
    [selectedAircraft] is a key of [aircraftPresets], and the weight, the
    wing area and the 3D model in use are those of its entry. *)
Theorem selected_aircraft_consistent :
  forall s : State,
    widgetReachable s ->
    exists preset : AircraftPreset,
      lookupPreset aircraftPresets (selectedAircraft s) = Some preset
      /\ weight (parameters s) = preset_weight preset
      /\ wingArea (parameters s) = preset_wingArea preset
      /\ selectedModel s = preset_modelPath preset.
Proof. exact widgetReachable_selection. Qed.

(** *** The forces *)

(** X5: signs and bounds of the forces.  In every state the widgets can
    lead to, provided the host's exponential is not negative at the current
    altitude, lift and drag are not negative, the thrust lies between 0 and
    120000 and the weight is positive. *)
Theorem forces_signs :
  forall s : State,
    widgetReachable s ->
    0 <= Math_exp ((- altitude (parameters s)) / 8400) ->
    0 <= Forces.lift (forces s)
    /\ 0 <= Forces.drag (forces s)
    /\ 0 <= Forces.thrust (forces s) <= 120000
    /\ 0 < Forces.weight (forces s).
Proof.
  intros s W He.
  pose proof (widgetReachable_reachable s W) as R.
  pose proof (reachable_settled s R) as (Hf & _).
  destruct (reachable_airframe s R) as (Hl & Hd & _ & Hw & Ha).
  destruct (widgetReachable_inRange s W) as (_ & _ & _ & (T1 & T2)).
  rewrite Hf. unfold computeForces, liftBeforeStall, dynamicPressure,
    airDensity, velocityMs.
  cbn [Forces.lift Forces.drag Forces.thrust Forces.weight].
  rewrite Hl, Hd.
  set (E := Math_exp ((- altitude (parameters s)) / 8400)) in *.
  set (v := airspeed (parameters s) / 3.6).
  set (A := wingArea (parameters s)) in *.
  assert (Hvv : 0 <= v * v) by nra.
  assert (Hq : 0 <= 0.5 * (1.225 * E) * v * v).
  { setoid_replace (0.5 * (1.225 * E) * v * v) with ((0.6125 * E) * (v * v)) by ring.
    apply Qmult_le_0_compat; [lra | exact Hvv]. }
  set (q := 0.5 * (1.225 * E) * v * v) in *.
  assert (HqA : 0 <= q * A).
  { apply Qmult_le_0_compat; [exact Hq | lra]. }
  set (qA := q * A) in *. clearbody qA q v E A.
  set (t := throttle (parameters s)) in *. clearbody t.
  setoid_replace (t / 100 * 120000) with (1200 * t) by field.
  split; [destruct (stalling (parameters s)); lra|].
  split; [lra|]. split; [split; lra|lra].
Qed.

(** X6: speed squared.  At twice the airspeed, all else equal, the drag and
    the lift are four times as large (the stall flag does not depend on the
    airspeed). *)
Theorem doubling_speed_quadruples_drag :
  forall (a : Q) (p : FlightParameters),
    let slow := computeForces (setParameter K_airspeed a p) in
    let fast := computeForces (setParameter K_airspeed (2 * a) p) in
    Forces.drag fast == 4 * Forces.drag slow
    /\ Forces.lift fast == 4 * Forces.lift slow
    /\ Forces.thrust fast = Forces.thrust slow
    /\ Forces.weight fast = Forces.weight slow
    /\ stalling (setParameter K_airspeed (2 * a) p) = stalling p.
Proof.
  intros a p slow fast. subst slow fast.
  unfold computeForces, liftBeforeStall, dynamicPressure, airDensity, velocityMs,
    stalling.
  cbn [Forces.drag Forces.lift Forces.thrust Forces.weight setParameter
       airspeed altitude wingArea liftCoefficient dragCoefficient angleOfAttack
       throttle weight].
  set (E := Math_exp ((- altitude p) / 8400)). clearbody E.
  split; [field|].
  split; [destruct (Qltb criticalAngle (angleOfAttack p)); field|].
  repeat split.
Qed.

(** *** The animation tick, continued *)

Lemma integrate_velocity (c : IntervalClosure) (prev : Position.t) :
  snd (integrate c prev)
  = Velocity.mk (Velocity.x (c_velocity c) + accelX c * 0.1)
                (Velocity.y (c_velocity c) + accelY c * 0.1) 0.
Proof. reflexivity. Qed.

Lemma step_tick_running (s : State) :
  reachable s -> isRunning s = true ->
  step IntervalTick s = animationEffect (intervalCallback (currentClosure s) s).
Proof.
  intros R Hr.
  pose proof (reachable_settled s R) as (Hf & Hs & Hi & Hfb & Htips & Ht).
  rewrite Hr in Hi. unfold step. cbn [handle]. rewrite Hi.
  apply flush_animation_only; try assumption.
  apply (tutorialEffect_transfer s); try reflexivity. exact Ht.
Qed.

(** X7: what a tick leaves alone.  A tick of the running component, from a
    state the widgets can lead to, writes the position, the velocity and
    the closure of the next tick, and nothing else: flag, parameters,
    forces, stall flag, tutorial cells, time-outs, feedback and selection
    are as before.  The
    new velocity is the old one plus a tenth of the acceleration, its
    angular part is 0, and the rotation is the angle of attack in
    radians. *)
Theorem tick_frame :
  forall s : State,
    widgetReachable s ->
    isRunning s = true ->
    let c := currentClosure s in
    let s' := step IntervalTick s in
    s' = withInterval (Some (currentClosure s'))
           (setVelocity (velocity s') (setPosition (position s') s))
    /\ velocity s'
       = Velocity.mk (Velocity.x (velocity s) + accelX c * 0.1)
                     (Velocity.y (velocity s) + accelY c * 0.1) 0
    /\ Position.rotation (position s')
       = angleOfAttack (parameters s) * (Math_PI / 180)
    /\ accelX (currentClosure s') = accelX c
    /\ accelY (currentClosure s') = accelY c.
Proof.
  intros s W Hr c s'. subst s' c.
  pose proof (widgetReachable_reachable s W) as R.
  rewrite (step_tick_running s R Hr).
  unfold animationEffect, intervalCallback.
  cbn [isRunning withInterval setVelocity setPosition forces velocity parameters
       position].
  rewrite Hr. cbn [negb]. rewrite integrate_velocity.
  split; [|repeat split].
  unfold currentClosure.
  cbn [isRunning withInterval setVelocity setPosition forces velocity parameters
       position].
  reflexivity.
Qed.

Lemma tick_keeps_running (s : State) :
  reachable s -> isRunning s = true ->
  isRunning (step IntervalTick s) = true
  /\ parameters (step IntervalTick s) = parameters s
  /\ forces (step IntervalTick s) = forces s
  /\ velocity (step IntervalTick s)
     = Velocity.mk
         (Velocity.x (velocity s) + accelX (currentClosure s) * 0.1)
         (Velocity.y (velocity s) + accelY (currentClosure s) * 0.1) 0.
Proof.
  intros R Hr. rewrite (step_tick_running s R Hr).
  unfold animationEffect, intervalCallback.
  cbn [isRunning withInterval setVelocity setPosition forces velocity parameters
       position].
  rewrite Hr. cbn [negb isRunning withInterval setVelocity setPosition forces
                   velocity parameters].
  rewrite integrate_velocity. repeat split; assumption.
Qed.

(** X8: ticks add up.  While the component runs and nothing else happens,
    [n] ticks from a state the widgets can lead to leave the flag set and the parameters
    and forces as they are, and add [n] tenths of the acceleration to each
    component of the velocity. *)
Theorem velocity_after_ticks :
  forall (n : nat) (s : State),
    widgetReachable s ->
    isRunning s = true ->
    let s' := run (repeat IntervalTick n) s in
    isRunning s' = true
    /\ parameters s' = parameters s
    /\ forces s' = forces s
    /\ Velocity.x (velocity s')
       == Velocity.x (velocity s)
          + inject_Z (Z.of_nat n) * (accelX (currentClosure s) * 0.1)
    /\ Velocity.y (velocity s')
       == Velocity.y (velocity s)
          + inject_Z (Z.of_nat n) * (accelY (currentClosure s) * 0.1).
Proof.
  induction n as [|n IH]; intros s W Hr s'; subst s';
    pose proof (widgetReachable_reachable s W) as R.
  - unfold run; simpl. repeat split; try assumption; ring.
  - change (repeat IntervalTick (S n)) with (IntervalTick :: repeat IntervalTick n).
    rewrite run_cons.
    destruct (tick_keeps_running s R Hr) as (Hr' & Hp' & Hf' & Hv').
    destruct (IH (step IntervalTick s) (widgetReachable_step IntervalTick s W I) Hr')
      as (H1 & H2 & H3 & H4 & H5).
    assert (Hc : accelX (currentClosure (step IntervalTick s))
                 = accelX (currentClosure s)
                 /\ accelY (currentClosure (step IntervalTick s))
                    = accelY (currentClosure s)).
    { unfold accelX, accelY, currentClosure. cbn [c_forces c_weight].
      rewrite Hf', Hp'. split; reflexivity. }
    destruct Hc as [Hcx Hcy].
    split; [exact H1|]. split; [congruence|]. split; [congruence|].
    rewrite H4, H5, Hcx, Hcy, Hv'. cbn [Velocity.x Velocity.y].
    rewrite Znat.Nat2Z.inj_succ. unfold Z.succ. rewrite inject_Z_plus.
    split; ring.
Qed.

(** X9: the labels and the direction of a tick.  In a state the widgets
    can lead to, with the component running, the label under the lift says Climbing exactly
    when a tick makes the vertical velocity smaller (up is negative y),
    Descending when a tick makes it larger and Level when a tick leaves it
    as it is; likewise Accelerating, Decelerating and Steady for the
    horizontal velocity. *)
Theorem labels_and_tick_direction :
  forall s : State,
    widgetReachable s ->
    isRunning s = true ->
    let f := forces s in
    let v := velocity s in
    let v' := velocity (step IntervalTick s) in
    match Forces.lift f ?= Forces.weight f with
    | Gt => verticalLabel f = "Climbing"%string /\ Velocity.y v' < Velocity.y v
    | Lt => verticalLabel f = "Descending"%string /\ Velocity.y v < Velocity.y v'
    | Eq => verticalLabel f = "Level"%string /\ Velocity.y v' == Velocity.y v
    end
    /\ match Forces.thrust f ?= Forces.drag f with
       | Gt => horizontalLabel f = "Accelerating"%string
               /\ Velocity.x v < Velocity.x v'
       | Lt => horizontalLabel f = "Decelerating"%string
               /\ Velocity.x v' < Velocity.x v
       | Eq => horizontalLabel f = "Steady"%string
               /\ Velocity.x v' == Velocity.x v
       end.
Proof.
  intros s W Hr f v v'. subst f v v'.
  pose proof (widgetReachable_reachable s W) as R.
  destruct (tick_keeps_running s R Hr) as (_ & _ & _ & Hv).
  destruct (reachable_airframe s R) as (_ & _ & _ & Hm & _).
  rewrite Hv. cbn [Velocity.x Velocity.y].
  unfold accelX, accelY, currentClosure, Qdiv. cbn [c_forces c_weight].
  apply Qinv_lt_0_compat in Hm.
  set (im := / weight (parameters s)) in *. clearbody im.
  set (vx := Velocity.x (velocity s)). set (vy := Velocity.y (velocity s)).
  clearbody vx vy.
  unfold verticalLabel, horizontalLabel.
  set (l := Forces.lift (forces s)). set (w := Forces.weight (forces s)).
  set (t := Forces.thrust (forces s)). set (d := Forces.drag (forces s)).
  clearbody l w t d.
  split.
  - destruct (l ?= w) eqn:C.
    + apply Qeq_alt in C.
      assert (H1 : Qltb w l = false) by (apply Qltb_ge; lra).
      assert (H2 : Qltb l w = false) by (apply Qltb_ge; lra).
      rewrite H1, H2. split; [reflexivity|].
      setoid_replace (l - w) with 0 by lra. ring.
    + apply Qlt_alt in C.
      assert (H1 : Qltb w l = false) by (apply Qltb_ge; lra).
      assert (H2 : Qltb l w = true) by (apply Qltb_lt; lra).
      rewrite H1, H2. split; [reflexivity|]. nra.
    + apply Qgt_alt in C.
      assert (H1 : Qltb w l = true) by (apply Qltb_lt; lra).
      rewrite H1. split; [reflexivity|]. nra.
  - destruct (t ?= d) eqn:C.
    + apply Qeq_alt in C.
      assert (H1 : Qltb d t = false) by (apply Qltb_ge; lra).
      assert (H2 : Qltb t d = false) by (apply Qltb_ge; lra).
      rewrite H1, H2. split; [reflexivity|].
      setoid_replace (t - d) with 0 by lra. ring.
    + apply Qlt_alt in C.
      assert (H1 : Qltb d t = false) by (apply Qltb_ge; lra).
      assert (H2 : Qltb t d = true) by (apply Qltb_lt; lra).
      rewrite H1, H2. split; [reflexivity|]. nra.
    + apply Qgt_alt in C.
      assert (H1 : Qltb d t = true) by (apply Qltb_lt; lra).
      rewrite H1. split; [reflexivity|]. nra.
Qed.

Lemma step_toggleRunning (s : State) :
  reachable s ->
  step ToggleRunning s = animationEffect (toggleRunning s).
Proof.
  intro R.
  pose proof (reachable_settled s R) as (Hf & Hs & Hi & Hfb & Htips & Ht).
  unfold step. cbn [handle].
  apply flush_animation_only; try assumption.
  apply (tutorialEffect_transfer s); try reflexivity. exact Ht.
Qed.

(** X10: Pause and Play.  From a state the widgets can lead to, pressing the Play/Pause
    button twice gives the state back as it was: position and velocity are
    kept over a pause, nothing is reset. *)
Theorem pause_play_round_trip :
  forall s : State,
    widgetReachable s ->
    step ToggleRunning (step ToggleRunning s) = s.
Proof.
  intros s W. pose proof (widgetReachable_reachable s W) as R.
  rewrite (step_toggleRunning (step ToggleRunning s) (reachable_step _ _ R)).
  rewrite (step_toggleRunning s R).
  pose proof (reachable_settled s R) as (_ & _ & Hi & _).
  unfold animationEffect, toggleRunning, currentClosure in *.
  destruct s as [r sa p f po v st ct ta cs sh pf tips am sm ve i ts].
  cbn in Hi. cbn. destruct r; cbn; rewrite Hi; reflexivity.
Qed.

(** *** The feedback classifier, continued *)

Ltac classify_cases p f :=
  unfold classify, checkBalance, checkAltitude, checkAngle, checkAirspeed;
  destruct (balanced f);
  destruct (Qltb 8000 (altitude p));
  destruct (Qltb 12 (angleOfAttack p) && Qleb (angleOfAttack p) 15);
  destruct (Qltb 15 (angleOfAttack p));
  destruct (Qltb (angleOfAttack p) 0);
  destruct (Qltb (airspeed p) 150);
  destruct (Qltb 400 (airspeed p));
  cbn [fst snd app].

(** X11: the tips.  Unlike the advisory string, the tips are not
    overwritten: the list is the tips of the airspeed check, then those of
    the angle check, of the altitude check and of the balance check, each as
    if it ran alone.  There are at most eight, and there is none exactly
    when the advisory string is empty. *)
Theorem tips_accumulate :
  forall (p : FlightParameters) (f : Forces.t),
    let none := (EmptyString, @nil string) in
    snd (classify p f)
    = (snd (checkAirspeed p none) ++ snd (checkAngle p none)
       ++ snd (checkAltitude p none) ++ snd (checkBalance f none))%list
    /\ (length (snd (classify p f)) <= 8)%nat
    /\ (snd (classify p f) = [] <-> fst (classify p f) = EmptyString).
Proof.
  intros p f none. subst none.
  split; [classify_cases p f; reflexivity|].
  split; [classify_cases p f; simpl; lia|].
  classify_cases p f;
    unfold feedback_balanced, feedback_highAltitude, feedback_nearStall,
      feedback_stall, feedback_negativeAngle, feedback_lowSpeed,
      feedback_highSpeed;
    split; intro H; try reflexivity; discriminate H.
Qed.

Lemma classify_balanced (p : FlightParameters) (f : Forces.t) :
  fst (classify p f) = feedback_balanced <-> balanced f = true.
Proof.
  classify_cases p f;
    unfold feedback_balanced, feedback_highAltitude, feedback_nearStall,
      feedback_stall, feedback_negativeAngle, feedback_lowSpeed,
      feedback_highSpeed;
    split; intro H; try reflexivity; discriminate H.
Qed.

(** X12: the two balance displays agree.  In every state the widgets can lead to the
    advisory is the balanced-forces one exactly when the force analysis
    panel of the informational step reports perfect balance. *)
Theorem balance_displays_agree :
  forall s : State,
    widgetReachable s ->
    (parameterFeedback s = feedback_balanced <->
     analysisLine (forces s)
     = "✅ Perfect balance achieved! This is steady, efficient flight."%string)
    /\ (parameterFeedback s = feedback_balanced <-> balanced (forces s) = true).
Proof.
  intros s W. pose proof (widgetReachable_reachable s W) as R.
  pose proof (reachable_settled s R) as (_ & _ & _ & Hfb & _).
  rewrite Hfb.
  assert (H : analysisLine (forces s)
              = "✅ Perfect balance achieved! This is steady, efficient flight."%string
              <-> balanced (forces s) = true).
  { unfold analysisLine. fold (balanced (forces s)).
    destruct (balanced (forces s)); split; intro H;
      try reflexivity; discriminate H. }
  split; [rewrite H|]; apply classify_balanced.
Qed.

(** *** The tutorial tracker, continued *)

Lemma completedSteps_tutorialEffect_fresh (s : State) :
  completedSteps (tutorialEffect s) = completedSteps s
  \/ exists st : TutorialStep,
       ~ In (id st) (completedSteps s)
       /\ completedSteps (tutorialEffect s) = completedSteps s ++ [id st].
Proof.
  unfold tutorialEffect.
  destruct (negb (tutorialActive s) || (length tutorialSteps <=? currentTutorial s)%nat);
    [left; reflexivity|].
  destruct (nth_error tutorialSteps (currentTutorial s)) as [st|] eqn:N;
    [|left; reflexivity].
  destruct (isInformational st) eqn:I; [left; reflexivity|].
  destruct (stepCompleted st (getParameter (target st) (parameters s))
            && negb (includes (completedSteps s) (id st))) eqn:C;
    [|left; reflexivity].
  right. exists st. split; [|reflexivity].
  apply andb_true_iff in C. destruct C as [_ C].
  apply negb_true_iff in C. intro Hin. apply includes_In in Hin. congruence.
Qed.

Lemma reachable_completed_NoDup (s : State) :
  reachable s -> NoDup (completedSteps s).
Proof.
  assert (Hflush : forall x : State,
             NoDup (completedSteps x) -> NoDup (completedSteps (flush x))).
  { intros x Hx. unfold flush.
    destruct (completedSteps_tutorialEffect_fresh
                (feedbackEffect (animationEffect (physicsEffect x))))
      as [H|(st & Hn & H)]; rewrite H; clear H.
    - unfold feedbackEffect, animationEffect; simpl.
      destruct (isRunning x) eqn:E; simpl; exact Hx.
    - revert Hn. unfold feedbackEffect, animationEffect; simpl.
      destruct (isRunning x) eqn:E; simpl; intro Hn;
        (apply NoDup_app; [exact Hx | repeat constructor; intros [] |];
         intros a Ha [<-|[]]; exact (Hn Ha)). }
  induction 1 as [|e s R IH]; apply Hflush.
  - constructor.
  - destruct (completedSteps_handle_cases e s) as [H|H]; rewrite H;
      [exact IH | constructor].
Qed.

Lemma reachable_completed_ids (s : State) :
  reachable s -> incl (completedSteps s) [1; 2; 3; 4]%nat.
Proof.
  intros R n Hn.
  destruct (reachable_completed_not_informational s R n Hn)
    as (st & Hin & Hi & <-).
  unfold tutorialSteps in Hin. simpl in Hin.
  repeat match goal with
         | H : _ \/ _ |- _ => destruct H as [H|H]
         | H : False |- _ => destruct H
         end; subst; simpl in *; try discriminate Hi; auto 6.
Qed.

(** X13: the progress bar.  In every state the widgets can lead to the completed step ids
    are distinct ids of the four steps that are not informational, so there
    are at most [tutorialSteps.length - 1] of them and the value of the
    progress bar lies between 0 and 100. *)
Theorem progress_bounded :
  forall s : State,
    widgetReachable s ->
    NoDup (completedSteps s)
    /\ incl (completedSteps s) [1; 2; 3; 4]%nat
    /\ (length (completedSteps s) <= length tutorialSteps - 1)%nat
    /\ 0 <= progressValue s <= 100.
Proof.
  intros s W. pose proof (widgetReachable_reachable s W) as R.
  pose proof (reachable_completed_NoDup s R) as Hnd.
  pose proof (reachable_completed_ids s R) as Hin.
  pose proof (NoDup_incl_length Hnd Hin) as Hlen. simpl in Hlen.
  split; [exact Hnd|]. split; [exact Hin|]. split; [exact Hlen|].
  unfold progressValue. change (length tutorialSteps - 1)%nat with 4%nat.
  set (n := length (completedSteps s)) in *. clearbody n.
  assert (H0 : 0 <= inject_Z (Z.of_nat n)).
  { change 0 with (inject_Z 0). rewrite <- Zle_Qle. lia. }
  assert (H4 : inject_Z (Z.of_nat n) <= 4).
  { change 4 with (inject_Z 4). rewrite <- Zle_Qle. lia. }
  set (q := inject_Z (Z.of_nat n)) in *. clearbody q.
  setoid_replace (q / inject_Z (Z.of_nat 4) * 100) with (25 * q) by (cbn; field).
  split; lra.
Qed.

Lemma timeouts_flush (s : State) :
  exists added : list nat, timeouts (flush s) = timeouts s ++ added.
Proof.
  unfold flush.
  assert (H : forall x, exists added, timeouts (tutorialEffect x) = timeouts x ++ added).
  { intro x. unfold tutorialEffect.
    repeat match goal with
           | |- context [if ?b then _ else _] => destruct b
           | |- context [match nth_error ?l ?n with _ => _ end] => destruct (nth_error l n)
           end;
      try (exists []; rewrite app_nil_r; reflexivity).
    eexists. reflexivity. }
  destruct (H (feedbackEffect (animationEffect (physicsEffect s)))) as [l Hl].
  exists l. rewrite Hl.
  unfold feedbackEffect, animationEffect; simpl.
  destruct (isRunning s) eqn:E; simpl; auto.
Qed.

Lemma currentTutorial_timeoutFires (x : State) (captured : nat) (rest : list nat) :
  timeouts x = captured :: rest ->
  (captured < length tutorialSteps - 1)%nat ->
  currentTutorial (step TimeoutFires x) = (currentTutorial x + 1)%nat.
Proof.
  intros Ht Hc. unfold step. rewrite currentTutorial_flush.
  cbn [handle]. rewrite Ht. unfold timeoutCallback.
  apply Nat.ltb_lt in Hc. rewrite Hc. reflexivity.
Qed.

Lemma step_tutorialNext (s : State) :
  tutorialActive s = true ->
  (currentTutorial s < length tutorialSteps - 1)%nat ->
  currentTutorial (step TutorialNext s) = (currentTutorial s + 1)%nat
  /\ exists added : list nat,
       timeouts (step TutorialNext s) = timeouts s ++ added.
Proof.
  intros Ha Hn. apply Nat.ltb_lt in Hn.
  assert (Hh : handle TutorialNext s
               = setCurrentTutorial (currentTutorial s + 1)%nat s).
  { cbn [handle]. rewrite Ha. unfold tutorialNext. rewrite Hn. reflexivity. }
  unfold step. rewrite Hh, currentTutorial_flush.
  split; [reflexivity|].
  destruct (timeouts_flush (setCurrentTutorial (currentTutorial s + 1)%nat s))
    as [l Hl].
  exists l. exact Hl.
Qed.

(** X14: Next pressed before the time-out of a completed step fires.  From
    a state the widgets can lead to, with the tutorial active before its
    last step and a time-out pending (armed before the last step), pressing
    Next moves on by one step and the time-out, when it fires, by one more:
    the tutorial ends up two steps further, a step is skipped. *)
Theorem next_before_timeout_skips_a_step :
  forall (s : State) (captured : nat) (rest : list nat),
    widgetReachable s ->
    tutorialActive s = true ->
    timeouts s = captured :: rest ->
    (captured < length tutorialSteps - 1)%nat ->
    (currentTutorial s < length tutorialSteps - 1)%nat ->
    currentTutorial (step TutorialNext s) = (currentTutorial s + 1)%nat
    /\ currentTutorial (step TimeoutFires (step TutorialNext s))
       = (currentTutorial s + 2)%nat.
Proof.
  intros s captured rest _ Ha Ht Hc Hn.
  destruct (step_tutorialNext s Ha Hn) as [H1 [added H2]].
  split; [exact H1|].
  rewrite Ht in H2.
  rewrite (currentTutorial_timeoutFires (step TutorialNext s) captured
             (rest ++ added) H2 Hc), H1.
  lia.
Qed.

(** X15: Start Tutorial.  Whatever the state, after Start Tutorial the
    tutorial is active at its first step, the simulation is stopped at the
    initial position, and the first step is completed at once, with its
    time-out armed, exactly when the airspeed is already 250 or more, as it
    is with the initial parameters; time-outs pending from before are
    kept. *)
Theorem startTutorial_completes_first_step :
  forall s : State,
    let s' := step StartTutorial s in
    let fast := Qleb 250 (airspeed (parameters s)) in
    tutorialActive s' = true
    /\ currentTutorial s' = 0%nat
    /\ isRunning s' = false
    /\ position s' = Position.mk 400 300 0
    /\ completedSteps s' = (if fast then [1%nat] else [])
    /\ timeouts s' = (if fast then timeouts s ++ [0%nat] else timeouts s).
Proof.
  intros s s' fast. subst s' fast. unfold step.
  rewrite tutorialActive_flush, currentTutorial_flush, isRunning_flush,
    position_flush.
  do 4 (split; [reflexivity|]).
  unfold flush.
  set (x := feedbackEffect (animationEffect (physicsEffect (handle StartTutorial s)))).
  assert (Ha : tutorialActive x = true) by reflexivity.
  assert (Hn : nth_error tutorialSteps (currentTutorial x)
               = Some (mkStep 1 "Understanding Airspeed" K_airspeed
                              (Some 250) None false)) by reflexivity.
  rewrite (tutorialEffect_active x _ Ha Hn).
  cbn [isInformational]. rewrite stepCompleted_first.
  assert (Hp : getParameter K_airspeed (parameters x) = airspeed (parameters s))
    by reflexivity.
  cbn [target id]. rewrite Hp.
  assert (Hc : completedSteps x = []) by reflexivity.
  assert (Ht : timeouts x = timeouts s) by reflexivity.
  assert (Hi : currentTutorial x = 0%nat) by reflexivity.
  rewrite Hc. cbn [includes existsb negb]. rewrite andb_true_r.
  destruct (Qleb 250 (airspeed (parameters s)));
    cbn [completedSteps timeouts withTimeouts setCompletedSteps];
    rewrite ?Hc, ?Ht, ?Hi; split; reflexivity.
Qed.

Lemma tutorialEffect_inactive (s : State) :
  tutorialActive s = false -> tutorialEffect s = s.
Proof. intro H. unfold tutorialEffect. rewrite H. reflexivity. Qed.

(** X16: the inactive tutorial.  While the tutorial is not active no event
    other than Start Tutorial makes it active, records a step or arms a
    time-out; a time-out left pending still fires and is then gone. *)
Theorem inactive_tutorial_records_nothing :
  forall (e : Event) (s : State),
    tutorialActive s = false ->
    e <> StartTutorial ->
    tutorialActive (step e s) = false
    /\ completedSteps (step e s) = completedSteps s
    /\ timeouts (step e s)
       = match e with
         | TimeoutFires => tl (timeouts s)
         | _ => timeouts s
         end.
Proof.
  intros e s Ha He.
  assert (H : tutorialActive (handle e s) = false
              /\ timeouts (handle e s)
                 = match e with
                   | TimeoutFires => tl (timeouts s)
                   | _ => timeouts s
                   end).
  { destruct e; try congruence; cbn [handle]; rewrite ?Ha;
      try (split; solve [exact Ha | reflexivity]).
    - unfold selectAircraft.
      destruct (lookupPreset aircraftPresets aircraftId);
        [destruct (String.eqb aircraftId "hot-air-balloon")|];
        split; solve [exact Ha | reflexivity].
    - destruct (interval s); split; solve [exact Ha | reflexivity].
    - destruct (timeouts s) as [|c rest] eqn:E;
        [split; [exact Ha | rewrite E; reflexivity]|].
      unfold timeoutCallback.
      destruct (c <? length tutorialSteps - 1)%nat;
        split; solve [exact Ha | reflexivity]. }
  destruct H as [H1 H2].
  unfold step. rewrite tutorialActive_flush.
  split; [exact H1|].
  unfold flush. rewrite tutorialEffect_inactive.
  - rewrite <- H2, <- (completedSteps_handle e s He).
    unfold feedbackEffect, animationEffect; simpl.
    destruct (isRunning (handle e s)) eqn:E; simpl; auto.
  - unfold feedbackEffect, animationEffect; simpl.
    destruct (isRunning (handle e s)) eqn:E; simpl; auto.
Qed.

(** *** Voice guidance *)

Lemma voiceEffect_announceAll (s : State) (v : Voice) :
  voiceEnabled s = true ->
  voiceEffect s v =
  let w := announceAll (lastAnnouncement v) (dueAnnouncements s v) v in
  mkVoice (lastAnnouncement w) (announcementTimeout w) (completedSteps s)
          (speechSynthesis w) (spoken w).
Proof.
  intro He. unfold voiceEffect, dueAnnouncements, announceAll. rewrite He.
  cbn [negb].
  destruct (isStalling s);
    destruct (Qltb 10000 (Forces.lift (forces s) - Forces.weight (forces s)));
    destruct (Qltb (Forces.lift (forces s) - Forces.weight (forces s)) (-10000));
    destruct (Qltb (airspeed (parameters s)) 150);
    destruct (Qltb 400 (airspeed (parameters s)));
    destruct (tutorialActive s && (0 <? length (completedSteps s))%nat
              && (length (previousCompletedSteps v) <? length (completedSteps s))%nat);
    reflexivity.
Qed.

Lemma last_default {A : Type} (l : list A) (a d d' : A) :
  last (a :: l) d = last (a :: l) d'.
Proof.
  revert a. induction l as [|b l IH]; intro a; [reflexivity|].
  change (last (b :: l) d = last (b :: l) d'). apply IH.
Qed.

Lemma last_cons {A : Type} (l : list A) (a d : A) : last (a :: l) d = last l a.
Proof.
  destruct l as [|b l]; [reflexivity|].
  change (last (b :: l) d = last (b :: l) a). apply last_default.
Qed.

Lemma announceAll_cons (seen m : string) (ms : list string) (v : Voice) :
  announceAll seen (m :: ms) v
  = announceAll seen ms (announceStatus true seen m false v).
Proof. reflexivity. Qed.

Lemma announceAll_mute (seen : string) (messages : list string) (v : Voice) :
  speechSynthesis v = None ->
  spoken (announceAll seen messages v) = spoken v
  /\ speechSynthesis (announceAll seen messages v) = None.
Proof.
  revert v. induction messages as [|m ms IH]; intros v Hv; [auto|].
  rewrite announceAll_cons. unfold announceStatus. cbn [negb andb].
  destruct (String.eqb m seen); [apply IH, Hv|].
  unfold speakText. rewrite Hv. cbn [snd].
  destruct (IH (mkVoice m true (previousCompletedSteps v) (speechSynthesis v) (spoken v)))
    as [H1 H2]; [exact Hv|].
  split; [exact H1 | exact H2].
Qed.

Lemma announceAll_spoken (seen : string) (messages : list string) (v : Voice)
      (queue : list string) :
  speechSynthesis v = Some queue ->
  let w := announceAll seen messages v in
  let news := notSeen seen messages in
  spoken w = spoken v ++ news
  /\ lastAnnouncement w = last news (lastAnnouncement v)
  /\ speechSynthesis w
     = match news with
       | [] => Some queue
       | _ => Some [last news EmptyString]
       end
  /\ announcementTimeout w
     = match news with
       | [] => announcementTimeout v
       | _ => true
       end
  /\ previousCompletedSteps w = previousCompletedSteps v.
Proof.
  revert v queue. induction messages as [|m ms IH]; intros v queue Hv.
  - cbn. rewrite app_nil_r. auto.
  - cbn zeta. rewrite announceAll_cons. unfold announceStatus. cbn [negb andb].
    unfold notSeen. cbn [filter]. fold (notSeen seen ms).
    destruct (String.eqb m seen); cbn [negb]; [apply (IH v queue Hv)|].
    unfold speakText. rewrite Hv. cbn [snd speechSynthesis spoken previousCompletedSteps].
    pose proof (IH (mkVoice m true (previousCompletedSteps v) (Some [m]) (spoken v ++ [m]))
                   [m] eq_refl) as H.
    cbn zeta in H.
    cbn [spoken lastAnnouncement announcementTimeout previousCompletedSteps] in H.
    destruct H as (H1 & H2 & H3 & H4 & H5).
    rewrite H1, H2, H3, H4, H5.
    split; [rewrite <- app_assoc; reflexivity|].
    split; [symmetry; apply last_cons|].
    split; [destruct (notSeen seen ms); reflexivity|].
    split; [destruct (notSeen seen ms); reflexivity | reflexivity].
Qed.

Lemma notSeen_not_In (seen : string) (messages : list string) :
  ~ In seen (notSeen seen messages).
Proof.
  unfold notSeen. intro H. apply filter_In in H. destruct H as [_ H].
  rewrite String.eqb_refl in H. discriminate H.
Qed.

(** X17: when nothing is spoken.  With the voice guidance off the effect
    does nothing at all; without speech synthesis in the host nothing is
    handed to it, whatever is due. *)
Theorem voice_silent :
  forall (s : State) (v : Voice),
    voiceEnabled s = false \/ speechSynthesis v = None ->
    spoken (voiceEffect s v) = spoken v
    /\ speechSynthesis (voiceEffect s v) = speechSynthesis v
    /\ (voiceEnabled s = false -> voiceEffect s v = v).
Proof.
  intros s v H.
  assert (Hoff : voiceEnabled s = false -> voiceEffect s v = v).
  { intro He. unfold voiceEffect. rewrite He. reflexivity. }
  destruct (voiceEnabled s) eqn:He.
  - destruct H as [H|H]; [discriminate H|].
    rewrite (voiceEffect_announceAll s v He). cbn zeta.
    cbn [spoken speechSynthesis].
    destruct (announceAll_mute (lastAnnouncement v) (dueAnnouncements s v) v H)
      as [H1 H2].
    rewrite H1, H2, H. repeat split. intro C; discriminate C.
  - rewrite (Hoff eq_refl). repeat split.
Qed.

(** X18: what is spoken, and the debounce.  With the voice guidance on and
    speech synthesis at hand, one run of the effect speaks the due messages
    in the order stall, ascending or descending, speed, step completed,
    except the one equal to [lastAnnouncement] of the render, which is
    never repeated.  Each utterance cancels the one before, so only the last
    one stays in the queue; it becomes [lastAnnouncement] and the timer is
    armed.  When nothing is spoken, cell, queue and timer stay as they are.
    The completed steps are remembered in every case. *)
Theorem voice_speaks_due_messages :
  forall (s : State) (v : Voice) (queue : list string),
    voiceEnabled s = true ->
    speechSynthesis v = Some queue ->
    let news := notSeen (lastAnnouncement v) (dueAnnouncements s v) in
    let v' := voiceEffect s v in
    spoken v' = spoken v ++ news
    /\ ~ In (lastAnnouncement v) news
    /\ lastAnnouncement v' = last news (lastAnnouncement v)
    /\ speechSynthesis v'
       = match news with
         | [] => Some queue
         | _ => Some [last news EmptyString]
         end
    /\ announcementTimeout v'
       = match news with
         | [] => announcementTimeout v
         | _ => true
         end
    /\ previousCompletedSteps v' = completedSteps s.
Proof.
  intros s v queue He Hq news v'. subst news v'.
  rewrite (voiceEffect_announceAll s v He). cbn zeta.
  cbn [spoken lastAnnouncement speechSynthesis announcementTimeout
       previousCompletedSteps].
  destruct (announceAll_spoken (lastAnnouncement v) (dueAnnouncements s v) v queue Hq)
    as (H1 & H2 & H3 & H4 & _).
  split; [exact H1|]. split; [apply notSeen_not_In|].
  split; [exact H2|]. split; [exact H3|]. split; [exact H4 | reflexivity].
Qed.

Lemma notSeen_empty_due (s : State) (v : Voice) :
  notSeen EmptyString (dueAnnouncements s v) = dueAnnouncements s v.
Proof.
  unfold dueAnnouncements.
  destruct (isStalling s);
    destruct (Qltb 10000 (Forces.lift (forces s) - Forces.weight (forces s)));
    destruct (Qltb (Forces.lift (forces s) - Forces.weight (forces s)) (-10000));
    destruct (Qltb (airspeed (parameters s)) 150);
    destruct (Qltb 400 (airspeed (parameters s)));
    destruct (tutorialActive s && (0 <? length (completedSteps s))%nat
              && (length (previousCompletedSteps v) <? length (completedSteps s))%nat);
    reflexivity.
Qed.

(** X19: after the cool-down.  Once the timer armed by an announcement has
    fired, [lastAnnouncement] is empty again and the next run of the effect
    speaks every due message, the one that was held back included. *)
Theorem voice_after_cooldown :
  forall (s : State) (v : Voice) (queue : list string),
    voiceEnabled s = true ->
    speechSynthesis v = Some queue ->
    announcementTimeout v = true ->
    lastAnnouncement (announcementExpires v) = EmptyString
    /\ announcementTimeout (announcementExpires v) = false
    /\ spoken (voiceEffect s (announcementExpires v))
       = spoken v ++ dueAnnouncements s v.
Proof.
  intros s v queue He Hq Ht.
  unfold announcementExpires. rewrite Ht.
  split; [reflexivity|]. split; [reflexivity|].
  set (w := mkVoice EmptyString false (previousCompletedSteps v)
                    (speechSynthesis v) (spoken v)).
  rewrite (voiceEffect_announceAll s w He). cbn zeta. cbn [spoken].
  destruct (announceAll_spoken (lastAnnouncement w) (dueAnnouncements s w) w queue Hq)
    as (H1 & _).
  rewrite H1. cbn [lastAnnouncement spoken w].
  rewrite notSeen_empty_due. reflexivity.
Qed.

(** *** The 3D aircraft *)

(** X20: the balloon in the scene.  In every state the widgets can lead to,
    the model path names the hot-air balloon exactly when the hot-air
    balloon is the selected aircraft.  Then the model is not pitched and
    has no thrust cone, whatever the angle of attack and the throttle;
    otherwise the pitch is the angle of attack in radians and the cone is
    shown exactly when the throttle is above 30, in the second colour above
    70.  The yaw is the rotation of the position. *)
Theorem balloon_in_the_scene :
  forall s : State,
    widgetReachable s ->
    let view := aircraftView s in
    let a := angleOfAttack (parameters s) in
    let t := throttle (parameters s) in
    isHotAirBalloon (selectedModel s)
    = String.eqb (selectedAircraft s) "hot-air-balloon"
    /\ yaw view = Position.rotation (position s)
    /\ (if String.eqb (selectedAircraft s) "hot-air-balloon"
        then pitch view = 0 /\ thrustCone view = None
        else pitch view = a * (Math_PI / 180)
             /\ thrustCone view
                = (if Qltb 30 t
                   then Some (t / 500,
                              if Qltb 70 t then "#FF4500"%string
                              else "#FFA500"%string)
                   else None)).
Proof.
  intros s W view a t. subst view a t.
  destruct (widgetReachable_selection s W) as (preset & Hl & _ & _ & Hm).
  apply lookupPreset_In in Hl. unfold aircraftPresets in Hl. simpl in Hl.
  unfold aircraftView, aircraftModel. cbn [pitch yaw thrustCone fst snd].
  rewrite Hm.
  repeat match goal with
         | H : _ \/ _ |- _ => destruct H as [H|H]
         | H : False |- _ => destruct H
         end;
    injection Hl as Hid <-; rewrite <- Hid; cbn [preset_modelPath];
    repeat split.
Qed.

Lemma widgetReachable_run (es : list Event) (s : State) :
  Forall fromWidget es -> widgetReachable s -> widgetReachable (run es s).
Proof.
  revert s. induction es as [|e es IH]; intros s Hes W; [exact W|].
  inversion Hes as [|? ? He Hrest]; subst.
  rewrite run_cons. apply IH; [exact Hrest|].
  apply widgetReachable_step; assumption.
Qed.

(** *** Advanced metrics *)

(** X21: the lift-to-drag ratio.  In every state the widgets can lead to with a positive
    drag the ratio shown is that of the two coefficients, 48, or 14.4 in a
    stall, whatever the airspeed, the altitude and the aircraft. *)
Theorem lift_to_drag_ratio_constant :
  forall s : State,
    widgetReachable s ->
    0 < Forces.drag (forces s) ->
    exists r : Q,
      liftToDragRatio (forces s) = Some r
      /\ r == (if isStalling s then 14.4 else 48).
Proof.
  intros s W Hd. pose proof (widgetReachable_reachable s W) as R.
  pose proof (reachable_settled s R) as (Hf & Hs & _).
  destruct (reachable_airframe s R) as (Hl & Hc & _).
  unfold liftToDragRatio.
  assert (Hb : Qltb 0 (Forces.drag (forces s)) = true) by (apply Qltb_lt; exact Hd).
  rewrite Hb. eexists. split; [reflexivity|].
  rewrite Hs. revert Hd. rewrite Hf.
  unfold computeForces, liftBeforeStall.
  cbn [Forces.lift Forces.drag]. rewrite Hl, Hc.
  set (qA := dynamicPressure (parameters s) * wingArea (parameters s)).
  clearbody qA. intro Hd.
  assert (Hq : ~ qA == 0) by (intro H0; rewrite H0 in Hd; lra).
  destruct (stalling (parameters s)); field; exact Hq.
Qed.

End Properties.

(** ** Concrete runs *)

Section Runs.

#[local] Existing Instance sampleHost.

Lemma sampleFlying_reachable : reachable sampleFlying.
Proof. apply reachable_run, reachable_init. Qed.

(** With the angle of attack at 20 and the altitude at 9000 the stall check
    and the high-altitude check both match; the advisory is the
    high-altitude one. *)
Example stall_and_high_altitude :
  let s := run [SliderChange Slider_angleOfAttack 20;
                SliderChange Slider_altitude 9000] sampleMounted in
  isStalling s = true
  /\ Qltb 8000 (altitude (parameters s)) = true
  /\ parameterFeedback s = feedback_highAltitude.
Proof. vm_compute. repeat split. Qed.

(** With the thrust within 5000 of the drag and the lift within 10000 of
    the weight, the balanced-forces string replaces the stall string and
    the high-altitude string, whose checks match too. *)
Example balanced_overwrites_stall :
  fst (classify (mkParameters 250 20 9000 75 41400 125 1.2 0.025)
                (Forces.mk 400000 88000 90000 406134))
  = feedback_balanced.
Proof. vm_compute. reflexivity. Qed.

(** Events without Start Tutorial after the second step has been reached:
    the id recorded before is kept. *)
Lemma completedSteps_grow_witness :
  Forall (fun e => e <> StartTutorial)
         [SliderChange Slider_angleOfAttack 10; TimeoutFires;
          SliderChange Slider_airspeed 100]
  /\ completedSteps sampleAtStep2 = [1%nat]
  /\ completedSteps
       (run [SliderChange Slider_angleOfAttack 10; TimeoutFires;
             SliderChange Slider_airspeed 100] sampleAtStep2)
     = [1%nat; 2%nat]
  /\ incl (completedSteps sampleAtStep2)
          (completedSteps
             (run [SliderChange Slider_angleOfAttack 10; TimeoutFires;
                   SliderChange Slider_airspeed 100] sampleAtStep2)).
Proof.
  assert (H : Forall (fun e => e <> StartTutorial)
                     [SliderChange Slider_angleOfAttack 10; TimeoutFires;
                      SliderChange Slider_airspeed 100]).
  { repeat constructor; discriminate. }
  split; [exact H|].
  split; [vm_compute; reflexivity|].
  split; [vm_compute; reflexivity|].
  exact (proj2 (proj1 (completedSteps_grow_except_startTutorial _ sampleAtStep2 H))).
Defined.

(** Start Tutorial pressed again with all four steps completed: the ids 2,
    3 and 4 are gone. *)
Lemma completedSteps_shrink_on_startTutorial :
  reachable sampleStep4Done
  /\ completedSteps sampleStep4Done = [1; 2; 3; 4]%nat
  /\ completedSteps (step StartTutorial sampleStep4Done) = [1%nat]
  /\ In 2%nat (completedSteps sampleStep4Done)
  /\ ~ In 2%nat (completedSteps (step StartTutorial sampleStep4Done))
  /\ ~ incl (completedSteps sampleStep4Done)
            (completedSteps (step StartTutorial sampleStep4Done)).
Proof.
  assert (Hb : completedSteps sampleStep4Done = [1; 2; 3; 4]%nat)
    by (vm_compute; reflexivity).
  assert (Ha : completedSteps (step StartTutorial sampleStep4Done) = [1%nat])
    by (vm_compute; reflexivity).
  split; [apply reachable_run, reachable_init|].
  split; [exact Hb|]. split; [exact Ha|].
  rewrite Hb, Ha.
  split; [right; left; reflexivity|].
  split; [intros [H|[]]; discriminate H|].
  intro H. destruct (H 2%nat) as [C|[]]; [right; left; reflexivity | discriminate C].
Qed.

(** The selection of the hot-air balloon takes the airspeed from 250, in
    the range of the slider, to 30, out of it. *)
Lemma airspeed_leaves_range_on_balloon :
  (50 <= airspeed (parameters sampleMounted) <= 500)
  /\ airspeed (parameters (step (SelectAircraft "hot-air-balloon") sampleMounted))
     = 30
  /\ ~ (50 <= airspeed (parameters (step (SelectAircraft "hot-air-balloon")
                                         sampleMounted)) <= 500).
Proof.
  split; [split; vm_compute; discriminate|].
  split; [vm_compute; reflexivity|].
  intros [H _]. vm_compute in H. apply H. reflexivity.
Qed.

(** The airspeed slider moved to 300. *)
Lemma airspeed_range_witness :
  fromWidget (SliderChange Slider_airspeed 300)
  /\ (50 <= airspeed (parameters sampleMounted) <= 500)
  /\ (50 <= airspeed (parameters (step (SliderChange Slider_airspeed 300)
                                       sampleMounted)) <= 500).
Proof.
  assert (Hw : fromWidget (SliderChange Slider_airspeed 300)).
  { split; vm_compute; discriminate. }
  assert (Hs : 50 <= airspeed (parameters sampleMounted) <= 500).
  { split; vm_compute; discriminate. }
  split; [exact Hw|]. split; [exact Hs|].
  exact (airspeed_range_except_balloon
           (SliderChange Slider_airspeed 300) sampleMounted Hw Hs).
Defined.

(** The second step with the angle of attack moved to 10: the tracker
    records the step. *)
Lemma tutorial_step_completion_witness :
  let s := sliderChange Slider_angleOfAttack 10 sampleAtStep2 in
  tutorialActive s = true
  /\ nth_error tutorialSteps (currentTutorial s) = Some sampleStep2
  /\ inDeclaredRange sampleStep2 (getParameter (target sampleStep2) (parameters s))
  /\ completedSteps s = [1%nat]
  /\ completedSteps (tutorialEffect s) = [1%nat; 2%nat]
  /\ In (id sampleStep2) (completedSteps (tutorialEffect s)).
Proof.
  intro s.
  assert (Ha : tutorialActive s = true) by (vm_compute; reflexivity).
  assert (Hn : nth_error tutorialSteps (currentTutorial s) = Some sampleStep2)
    by (vm_compute; reflexivity).
  assert (Hr : inDeclaredRange sampleStep2
                 (getParameter (target sampleStep2) (parameters s))).
  { split; vm_compute; discriminate. }
  split; [exact Ha|]. split; [exact Hn|]. split; [exact Hr|].
  split; [vm_compute; reflexivity|].
  split; [vm_compute; reflexivity|].
  pose proof (tutorial_step_completion s sampleStep2 Ha Hn) as H.
  destruct H as (_ & Hin & _).
  apply Hin. left. exact Hr.
Defined.

(** The mounted component and the component in flight: equal parameters,
    different velocities, equal forces. *)
Lemma forces_pure_witness :
  parameters sampleMounted = parameters sampleFlying
  /\ velocity sampleMounted <> velocity sampleFlying
  /\ forces (physicsEffect sampleMounted) = forces (physicsEffect sampleFlying)
  /\ forces sampleMounted = forces sampleFlying.
Proof.
  assert (Hp : parameters sampleMounted = parameters sampleFlying)
    by (vm_compute; reflexivity).
  pose proof (forces_pure_function_of_parameters sampleMounted sampleFlying Hp)
    as (H1 & _ & _ & _ & H2).
  split; [exact Hp|].
  split; [vm_compute; discriminate|].
  split; [exact (proj1 H1)|].
  exact (proj1 (H2 reachable_init sampleFlying_reachable)).
Defined.

(** The component in flight: after Reset a tick changes nothing. *)
Lemma integration_only_while_running_witness :
  reachable sampleFlying
  /\ isRunning sampleFlying = true
  /\ isRunning (step ResetSimulation sampleFlying) = false
  /\ step IntervalTick (step ResetSimulation sampleFlying)
     = step ResetSimulation sampleFlying.
Proof.
  split; [exact sampleFlying_reachable|].
  split; [vm_compute; reflexivity|].
  split; [vm_compute; reflexivity|].
  exact (proj1 (proj2 (proj2
           (integration_only_while_running sampleFlying sampleFlying_reachable)))
           ResetSimulation eq_refl).
Defined.

(** A tick with forces far out of range, clamped to the corner (750, 50),
    and a tick of the component in flight. *)
Lemma position_clamped_witness :
  reachable sampleFlying
  /\ inCanvas (position (intervalCallback sampleHugeClosure sampleMounted))
  /\ position (intervalCallback sampleHugeClosure sampleMounted)
     = Position.mk 750 50 (25 * (Math_PI / 180))
  /\ inCanvas (position (step IntervalTick sampleFlying)).
Proof.
  pose proof (position_clamped_to_canvas sampleHugeClosure sampleMounted
                sampleFlying sampleFlying_reachable) as (H1 & _ & H3).
  split; [exact sampleFlying_reachable|].
  split; [exact H1|].
  split; [vm_compute; reflexivity|].
  exact H3.
Defined.

(** *** More runs *)

Ltac widget_events :=
  repeat (apply Forall_cons || apply Forall_nil);
  try exact I;
  try (unfold fromWidget, inSliderRange; simpl; split; discriminate);
  try (unfold fromWidget; simpl; tauto).

Lemma sampleBalloon_widgetReachable : widgetReachable sampleBalloon.
Proof.
  apply widgetReachable_run; [widget_events | apply widgetReachable_init].
Qed.

Lemma sampleStalledSlow_widgetReachable : widgetReachable sampleStalledSlow.
Proof.
  apply widgetReachable_run; [widget_events | apply widgetReachable_init].
Qed.

Lemma sampleStep4Done_widgetReachable : widgetReachable sampleStep4Done.
Proof.
  apply widgetReachable_run; [widget_events | apply widgetReachable_init].
Qed.

Lemma sampleFlying_widgetReachable : widgetReachable sampleFlying.
Proof.
  apply widgetReachable_run; [widget_events | apply widgetReachable_init].
Qed.

(** The balloon selected: airspeed 30, throttle 50, angle of attack 0. *)
Lemma parameters_stay_in_range_witness :
  widgetReachable sampleBalloon
  /\ airspeed (parameters sampleBalloon) = 30
  /\ parametersInRange (parameters sampleBalloon).
Proof.
  split; [exact sampleBalloon_widgetReachable|].
  split; [vm_compute; reflexivity|].
  exact (parameters_stay_in_range sampleBalloon sampleBalloon_widgetReachable).
Defined.

(** The balloon selected: weight 800, wing area 500. *)
Lemma airframe_constants_witness :
  widgetReachable sampleBalloon
  /\ weight (parameters sampleBalloon) = 800
  /\ 0 < weight (parameters sampleBalloon)
  /\ liftCoefficient (parameters sampleBalloon) = 1.2.
Proof.
  pose proof sampleBalloon_widgetReachable as R.
  pose proof (airframe_constants sampleBalloon R) as (Hl & _ & _ & Hw & _).
  split; [exact R|]. split; [vm_compute; reflexivity|].
  split; [exact Hw | exact Hl].
Defined.

Lemma selected_aircraft_consistent_witness :
  widgetReachable sampleBalloon
  /\ selectedAircraft sampleBalloon = "hot-air-balloon"%string
  /\ exists preset : AircraftPreset,
      lookupPreset aircraftPresets (selectedAircraft sampleBalloon) = Some preset
      /\ weight (parameters sampleBalloon) = preset_weight preset
      /\ wingArea (parameters sampleBalloon) = preset_wingArea preset
      /\ selectedModel sampleBalloon = preset_modelPath preset.
Proof.
  split; [exact sampleBalloon_widgetReachable|].
  split; [vm_compute; reflexivity|].
  exact (selected_aircraft_consistent sampleBalloon sampleBalloon_widgetReachable).
Defined.

Lemma forces_signs_witness :
  widgetReachable sampleStalledSlow
  /\ 0 <= Math_exp ((- altitude (parameters sampleStalledSlow)) / 8400)
  /\ 0 <= Forces.lift (forces sampleStalledSlow)
  /\ 0 <= Forces.thrust (forces sampleStalledSlow) <= 120000.
Proof.
  assert (He : 0 <= Math_exp ((- altitude (parameters sampleStalledSlow)) / 8400)).
  { vm_compute. discriminate. }
  pose proof (forces_signs sampleStalledSlow sampleStalledSlow_widgetReachable He)
    as (H1 & _ & H3 & _).
  split; [exact sampleStalledSlow_widgetReachable|].
  split; [exact He|]. split; [exact H1 | exact H3].
Defined.

(** The component in flight: one more tick. *)
Lemma tick_frame_witness :
  widgetReachable sampleFlying
  /\ isRunning sampleFlying = true
  /\ accelX (currentClosure (step IntervalTick sampleFlying))
     = accelX (currentClosure sampleFlying)
  /\ Position.rotation (position (step IntervalTick sampleFlying))
     = angleOfAttack (parameters sampleFlying) * (Math_PI / 180).
Proof.
  assert (Hr : isRunning sampleFlying = true) by (vm_compute; reflexivity).
  pose proof (tick_frame sampleFlying sampleFlying_widgetReachable Hr) as H.
  cbv zeta in H. destruct H as (_ & _ & H3 & H4 & _).
  split; [exact sampleFlying_widgetReachable|]. split; [exact Hr|].
  split; [exact H4 | exact H3].
Defined.

(** Five ticks of the component in flight. *)
Lemma velocity_after_ticks_witness :
  widgetReachable sampleFlying
  /\ isRunning sampleFlying = true
  /\ Velocity.x (velocity (run (repeat IntervalTick 5) sampleFlying))
     == Velocity.x (velocity sampleFlying)
        + inject_Z (Z.of_nat 5) * (accelX (currentClosure sampleFlying) * 0.1).
Proof.
  assert (Hr : isRunning sampleFlying = true) by (vm_compute; reflexivity).
  pose proof (velocity_after_ticks 5 sampleFlying sampleFlying_widgetReachable Hr) as H.
  cbv zeta in H. destruct H as (_ & _ & _ & H4 & _).
  split; [exact sampleFlying_widgetReachable|]. split; [exact Hr | exact H4].
Defined.

(** The component in flight with the initial parameters: the lift is below
    the weight and the thrust above the drag. *)
Lemma labels_and_tick_direction_witness :
  widgetReachable sampleFlying
  /\ isRunning sampleFlying = true
  /\ verticalLabel (forces sampleFlying) = "Descending"%string
  /\ Velocity.y (velocity sampleFlying)
     < Velocity.y (velocity (step IntervalTick sampleFlying))
  /\ horizontalLabel (forces sampleFlying) = "Accelerating"%string.
Proof.
  assert (Hr : isRunning sampleFlying = true) by (vm_compute; reflexivity).
  pose proof (labels_and_tick_direction sampleFlying sampleFlying_widgetReachable Hr) as H.
  cbv zeta in H. destruct H as (Hv & Hh).
  assert (Cv : (Forces.lift (forces sampleFlying)
                ?= Forces.weight (forces sampleFlying)) = Lt)
    by (vm_compute; reflexivity).
  assert (Ch : (Forces.thrust (forces sampleFlying)
                ?= Forces.drag (forces sampleFlying)) = Gt)
    by (vm_compute; reflexivity).
  rewrite Cv in Hv. rewrite Ch in Hh.
  split; [exact sampleFlying_widgetReachable|]. split; [exact Hr|].
  split; [exact (proj1 Hv)|]. split; [exact (proj2 Hv) | exact (proj1 Hh)].
Defined.

Lemma pause_play_round_trip_witness :
  widgetReachable sampleFlying
  /\ isRunning (step ToggleRunning sampleFlying) = false
  /\ step ToggleRunning (step ToggleRunning sampleFlying) = sampleFlying.
Proof.
  split; [exact sampleFlying_widgetReachable|].
  split; [vm_compute; reflexivity|].
  exact (pause_play_round_trip sampleFlying sampleFlying_widgetReachable).
Defined.

Lemma balance_displays_agree_witness :
  widgetReachable sampleFlying
  /\ (parameterFeedback sampleFlying = feedback_balanced <->
      balanced (forces sampleFlying) = true).
Proof.
  split; [exact sampleFlying_widgetReachable|].
  exact (proj2 (balance_displays_agree sampleFlying sampleFlying_widgetReachable)).
Defined.

(** Four steps completed: the progress bar is full. *)
Lemma progress_bounded_witness :
  widgetReachable sampleStep4Done
  /\ completedSteps sampleStep4Done = [1; 2; 3; 4]%nat
  /\ progressValue sampleStep4Done == 100
  /\ 0 <= progressValue sampleStep4Done <= 100.
Proof.
  pose proof (progress_bounded sampleStep4Done sampleStep4Done_widgetReachable)
    as (_ & _ & _ & H).
  split; [exact sampleStep4Done_widgetReachable|].
  split; [vm_compute; reflexivity|].
  split; [vm_compute; reflexivity | exact H].
Defined.

(** Next pressed right after the fourth step is completed: the time-out
    then moves the tutorial past its last step, where no step is left. *)
Lemma next_before_timeout_witness :
  widgetReachable sampleStep4Done
  /\ tutorialActive sampleStep4Done = true
  /\ timeouts sampleStep4Done = [3%nat]
  /\ currentTutorial sampleStep4Done = 3%nat
  /\ currentTutorial (step TimeoutFires (step TutorialNext sampleStep4Done))
     = (currentTutorial sampleStep4Done + 2)%nat
  /\ nth_error tutorialSteps
       (currentTutorial (step TimeoutFires (step TutorialNext sampleStep4Done)))
     = None.
Proof.
  assert (Ha : tutorialActive sampleStep4Done = true) by (vm_compute; reflexivity).
  assert (Ht : timeouts sampleStep4Done = [3%nat]) by (vm_compute; reflexivity).
  assert (Hc : currentTutorial sampleStep4Done = 3%nat) by (vm_compute; reflexivity).
  assert (H3 : (3 < length tutorialSteps - 1)%nat) by (simpl; lia).
  assert (Hn : (currentTutorial sampleStep4Done < length tutorialSteps - 1)%nat)
    by (rewrite Hc; simpl; lia).
  pose proof (next_before_timeout_skips_a_step sampleStep4Done 3 []
                sampleStep4Done_widgetReachable Ha Ht H3 Hn) as (_ & H).
  split; [exact sampleStep4Done_widgetReachable|]. split; [exact Ha|].
  split; [exact Ht|]. split; [exact Hc|]. split; [exact H|].
  rewrite H, Hc. reflexivity.
Defined.

(** Before the tutorial is started, the airspeed slider moved to 300. *)
Lemma inactive_tutorial_witness :
  tutorialActive sampleMounted = false
  /\ SliderChange Slider_airspeed 300 <> StartTutorial
  /\ completedSteps (step (SliderChange Slider_airspeed 300) sampleMounted)
     = completedSteps sampleMounted.
Proof.
  assert (Ha : tutorialActive sampleMounted = false) by (vm_compute; reflexivity).
  assert (He : SliderChange Slider_airspeed 300 <> StartTutorial) by discriminate.
  pose proof (inactive_tutorial_records_nothing _ sampleMounted Ha He) as (_ & H & _).
  split; [exact Ha|]. split; [exact He | exact H].
Defined.

(** A host without speech synthesis. *)
Lemma voice_silent_witness :
  (voiceEnabled sampleStalledSlow = false
   \/ speechSynthesis (mkVoice EmptyString false [] None []) = None)
  /\ spoken (voiceEffect sampleStalledSlow (mkVoice EmptyString false [] None []))
     = []
  /\ lastAnnouncement
       (voiceEffect sampleStalledSlow (mkVoice EmptyString false [] None []))
     = say_tooLow.
Proof.
  assert (H : voiceEnabled sampleStalledSlow = false
              \/ speechSynthesis (mkVoice EmptyString false [] None []) = None)
    by (right; reflexivity).
  pose proof (voice_silent sampleStalledSlow _ H) as (H1 & _).
  split; [exact H|]. split; [exact H1 | vm_compute; reflexivity].
Defined.

(** Stalled, descending and slow: three messages are spoken, only the last
    one stays in the queue.  With the stall warning spoken just before, it
    is not repeated. *)
Lemma voice_speaks_due_messages_witness :
  voiceEnabled sampleStalledSlow = true
  /\ speechSynthesis sampleVoice = Some []
  /\ dueAnnouncements sampleStalledSlow sampleVoice
     = [say_stall; say_descending; say_tooLow]
  /\ spoken (voiceEffect sampleStalledSlow sampleVoice)
     = [say_stall; say_descending; say_tooLow]
  /\ speechSynthesis (voiceEffect sampleStalledSlow sampleVoice) = Some [say_tooLow]
  /\ spoken (voiceEffect sampleStalledSlow sampleVoiceWarned)
     = [say_stall; say_descending; say_tooLow].
Proof.
  assert (He : voiceEnabled sampleStalledSlow = true) by (vm_compute; reflexivity).
  assert (Hd : dueAnnouncements sampleStalledSlow sampleVoice
               = [say_stall; say_descending; say_tooLow])
    by (vm_compute; reflexivity).
  assert (Hd' : dueAnnouncements sampleStalledSlow sampleVoiceWarned
                = [say_stall; say_descending; say_tooLow])
    by (vm_compute; reflexivity).
  pose proof (voice_speaks_due_messages sampleStalledSlow sampleVoice []
                He eq_refl) as H.
  pose proof (voice_speaks_due_messages sampleStalledSlow sampleVoiceWarned
                [say_stall] He eq_refl) as H'.
  cbv zeta in H, H'. rewrite Hd in H. rewrite Hd' in H'.
  destruct H as (H1 & _ & _ & H4 & _). destruct H' as (H1' & _).
  split; [exact He|]. split; [reflexivity|]. split; [exact Hd|].
  split; [exact H1|]. split; [exact H4 | exact H1'].
Defined.

(** The stall warning spoken just before, after its cool-down. *)
Lemma voice_after_cooldown_witness :
  voiceEnabled sampleStalledSlow = true
  /\ speechSynthesis sampleVoiceWarned = Some [say_stall]
  /\ announcementTimeout sampleVoiceWarned = true
  /\ spoken (voiceEffect sampleStalledSlow (announcementExpires sampleVoiceWarned))
     = spoken sampleVoiceWarned ++ dueAnnouncements sampleStalledSlow sampleVoiceWarned.
Proof.
  assert (He : voiceEnabled sampleStalledSlow = true) by (vm_compute; reflexivity).
  pose proof (voice_after_cooldown sampleStalledSlow sampleVoiceWarned [say_stall]
                He eq_refl eq_refl) as (_ & _ & H).
  split; [exact He|]. split; [reflexivity|]. split; [reflexivity | exact H].
Defined.

(** The balloon selected, throttle 50: no thrust cone, no pitch. *)
Lemma balloon_in_the_scene_witness :
  widgetReachable sampleBalloon
  /\ Qltb 30 (throttle (parameters sampleBalloon)) = true
  /\ isHotAirBalloon (selectedModel sampleBalloon) = true
  /\ thrustCone (aircraftView sampleBalloon) = None.
Proof.
  pose proof (balloon_in_the_scene sampleBalloon sampleBalloon_widgetReachable) as H.
  cbv zeta in H. destruct H as (H1 & _ & H3).
  assert (Hs : String.eqb (selectedAircraft sampleBalloon) "hot-air-balloon" = true)
    by (vm_compute; reflexivity).
  rewrite Hs in H1, H3.
  split; [exact sampleBalloon_widgetReachable|].
  split; [vm_compute; reflexivity|].
  split; [exact H1 | exact (proj2 H3)].
Defined.

(** Stalled and slow: the ratio is 14.4. *)
Lemma lift_to_drag_ratio_witness :
  widgetReachable sampleStalledSlow
  /\ 0 < Forces.drag (forces sampleStalledSlow)
  /\ isStalling sampleStalledSlow = true
  /\ exists r : Q,
      liftToDragRatio (forces sampleStalledSlow) = Some r /\ r == 14.4.
Proof.
  pose proof sampleStalledSlow_widgetReachable as R.
  assert (Hd : 0 < Forces.drag (forces sampleStalledSlow)) by (vm_compute; reflexivity).
  assert (Hs : isStalling sampleStalledSlow = true) by (vm_compute; reflexivity).
  pose proof (lift_to_drag_ratio_constant sampleStalledSlow R Hd) as H.
  rewrite Hs in H.
  split; [exact R|]. split; [exact Hd|]. split; [exact Hs | exact H].
Defined.

End Runs.
